(** * Shopify AI analytics service: the question pipeline and its fallbacks

    A shallow embedding of [services/ai_agent.py] and
    [services/shopify_client.py].

    Modelling conventions.
    - A Python value that travels through the pipeline (JSON data, the
      dictionaries the methods return) is a [py_value]; a dictionary is an
      association list in insertion order and a lookup takes the first
      binding of the key.
    - A Python [str] is a Rocq [string], one character per element.  The
      case mappings [lower] and [upper] and [strip] are those of ASCII
      text; the other string operations do not look at the characters.
    - A Python [float] is a binary64 primitive float, so a literal of the
      source denotes the same double here.
    - A synchronous method that may raise returns a [result]; an [async]
      method is a [prog]: a finite tree whose nodes are the outbound calls
      (the chat completion and the Shopify REST request), each followed
      by a continuation over every possible outcome of the call.  Opening
      and closing the HTTP client is taken not to fail, and cancellation
      of a request from outside is not modelled.
    - Conversions of the Python runtime that are algorithms of their own
      (parsing a number out of text, summing floats, [repr] and
      [json.dumps]) are the fields
      of a [py_runtime] taken as a section variable; the process
      environment is a function from variable names to optional values. *)

From Stdlib Require Import ZArith Bool List String Ascii Lia.
From Stdlib Require Import DecimalString.
From Stdlib Require Import Floats.PrimFloat Floats.SpecFloat Floats.FloatOps.
Import ListNotations.

Local Open Scope string_scope.
Local Open Scope Z_scope.
Local Open Scope list_scope.

Set Warnings "-register-all,-inexact-float".

(** ** Python strings *)

Module PyStr.

(** [sub in s]. *)
Fixpoint contains (sub s : string) : bool :=
  prefix sub s
  || match s with
     | EmptyString => false
     | String _ s' => contains sub s'
     end.

(** [s.endswith(suffix)]: some tail of [s] is [suffix]. *)
Fixpoint endswith (s suffix : string) : bool :=
  String.eqb s suffix
  || match s with
     | EmptyString => false
     | String _ s' => endswith s' suffix
     end.

(** The scan of [s.replace(old, new)] for a non-empty [old]: left to
    right, each occurrence found is replaced and the scan resumes after
    it ([skip] counts the characters of the occurrence still to pass);
    the text produced is never scanned again. *)
Fixpoint replace_from (old new : string) (skip : nat) (s : string) : string :=
  match s with
  | EmptyString => EmptyString
  | String c s' =>
      match skip with
      | S n => replace_from old new n s'
      | O =>
          if prefix old s
          then new ++ replace_from old new (String.length old - 1) s'
          else String c (replace_from old new 0 s')
      end
  end.

(** With an empty [old], Python puts [new] before every character and
    at the end. *)
Fixpoint interleave (new s : string) : string :=
  match s with
  | EmptyString => new
  | String c s' => new ++ String c (interleave new s')
  end.

Definition replace (s old new : string) : string :=
  match old with
  | EmptyString => interleave new s
  | String _ _ => replace_from old new 0 s
  end.

(** The scan of [s.split(sep)] for a non-empty [sep]; the head of the
    list is the piece being read. *)
Fixpoint split_from (sep : string) (skip : nat) (s : string) : list string :=
  match s with
  | EmptyString => [EmptyString]
  | String c s' =>
      match skip with
      | S n => split_from sep n s'
      | O =>
          if prefix sep s
          then EmptyString :: split_from sep (String.length sep - 1) s'
          else match split_from sep 0 s' with
               | piece :: pieces => String c piece :: pieces
               | [] => [String c EmptyString]
               end
      end
  end.

Definition split (s sep : string) : list string := split_from sep 0 s.

Definition map_chars (f : ascii -> ascii) : string -> string :=
  fix go (s : string) : string :=
    match s with
    | EmptyString => EmptyString
    | String c s' => String (f c) (go s')
    end.

Definition between (lo hi : nat) (c : ascii) : bool :=
  (Nat.leb lo (nat_of_ascii c) && Nat.leb (nat_of_ascii c) hi)%bool.

Definition lower_char (c : ascii) : ascii :=
  if between 65 90 c then ascii_of_nat (nat_of_ascii c + 32) else c.

Definition upper_char (c : ascii) : ascii :=
  if between 97 122 c then ascii_of_nat (nat_of_ascii c - 32) else c.

Definition lower : string -> string := map_chars lower_char.
Definition upper : string -> string := map_chars upper_char.

(** The ASCII characters [str.strip] removes: tab to carriage return,
    the four separators 28 to 31, and the space. *)
Definition is_space (c : ascii) : bool :=
  (between 9 13 c || between 28 32 c)%bool.

Fixpoint lstrip (s : string) : string :=
  match s with
  | EmptyString => EmptyString
  | String c s' => if is_space c then lstrip s' else s
  end.

Fixpoint rstrip (s : string) : string :=
  match s with
  | EmptyString => EmptyString
  | String c s' =>
      match rstrip s' with
      | EmptyString => if is_space c then EmptyString else String c EmptyString
      | r => String c r
      end
  end.

Definition strip (s : string) : string := rstrip (lstrip s).

(** [str(n)] for an integer. *)
Definition of_Z (n : Z) : string := NilZero.string_of_int (Z.to_int n).

(** The double quote, for the texts that hold one. *)
Definition dquote : string := String (ascii_of_nat 34) EmptyString.

End PyStr.


(** ** Python values, exceptions and results *)

Inductive py_value : Type :=
| PNone
| PBool (b : bool)
| PInt (n : Z)
| PFloat (x : float)
| PStr (s : string)
| PList (items : list py_value)
| PDict (entries : list (string * py_value)).

Inductive exn_class : Type :=
| AttributeError
| TypeError
| ValueError
| OverflowError
| IndexError
| KeyError
| OtherError (name : string).

(** An exception: its class and the text [str(e)] gives. *)
Record exn : Type := Exn { exn_kind : exn_class; exn_message : string }.

Inductive result (A : Type) : Type :=
| Ok (a : A)
| Raise (e : exn).

Arguments Ok {A} a.
Arguments Raise {A} e.

Definition result_bind {A B : Type} (r : result A) (f : A -> result B) : result B :=
  match r with
  | Ok a => f a
  | Raise e => Raise e
  end.

Notation "x <- r ;; k" := (result_bind r (fun x => k))
  (at level 61, r at next level, right associativity).

Fixpoint result_map {A B : Type} (f : A -> result B) (l : list A) : result (list B) :=
  match l with
  | [] => Ok []
  | a :: l' =>
      b <- f a ;;
      bs <- result_map f l' ;;
      Ok (b :: bs)
  end.

(** A comprehension [[item for item in l if test(item)]]: the test runs
    on the items in order and the first exception ends the loop. *)
Fixpoint result_filter {A : Type} (test : A -> result bool) (l : list A) : result (list A) :=
  match l with
  | [] => Ok []
  | a :: l' =>
      keep <- test a ;;
      rest <- result_filter test l' ;;
      Ok (if keep then a :: rest else rest)
  end.

(** What the Python runtime computes by algorithms of its own. *)
Record py_runtime : Type := {
  (** [int(s)] for a string: [None] when it raises [ValueError]. *)
  int_of_str : string -> option Z;
  (** [float(s)] for a string: [None] when it raises [ValueError]. *)
  float_of_str : string -> option float;
  (** [sum] over a non-empty sequence of floats, from the start value 0. *)
  float_sum : list float -> float;
  (** [repr(v)], which is also [str(v)] when [v] is not a string. *)
  repr : py_value -> string;
  (** [json.dumps(v, indent=2)]. *)
  json_dumps : py_value -> string
}.

Module Py.

Definition type_name (v : py_value) : string :=
  match v with
  | PNone => "NoneType"
  | PBool _ => "bool"
  | PInt _ => "int"
  | PFloat _ => "float"
  | PStr _ => "str"
  | PList _ => "list"
  | PDict _ => "dict"
  end.

Definition no_attribute {A : Type} (v : py_value) (attr : string) : result A :=
  Raise (Exn AttributeError
           ("'" ++ type_name v ++ "' object has no attribute '" ++ attr ++ "'")).

(** [bool(v)]: what [if v] and [not v] test. *)
Definition truthy (v : py_value) : bool :=
  match v with
  | PNone => false
  | PBool b => b
  | PInt n => negb (n =? 0)
  | PFloat x => negb (PrimFloat.eqb x 0%float)
  | PStr s => negb (String.eqb s "")
  | PList items => match items with [] => false | _ :: _ => true end
  | PDict entries => match entries with [] => false | _ :: _ => true end
  end.

(** [v == s] for a string literal [s]. *)
Definition eq_str (v : py_value) (s : string) : bool :=
  match v with
  | PStr t => String.eqb t s
  | _ => false
  end.

Fixpoint lookup (key : string) (entries : list (string * py_value)) : option py_value :=
  match entries with
  | [] => None
  | (k, v) :: rest => if String.eqb k key then Some v else lookup key rest
  end.

(** [d.get(key, default)] on a dictionary [d] that the code built. *)
Definition dict_get (entries : list (string * py_value)) (key : string)
           (default : py_value) : py_value :=
  match lookup key entries with
  | Some v => v
  | None => default
  end.

(** [v.get(key, default)] on any value: only a dictionary has [get]. *)
Definition get (v : py_value) (key : string) (default : py_value) : result py_value :=
  match v with
  | PDict entries => Ok (dict_get entries key default)
  | _ => no_attribute v "get"
  end.

(** [v[key]] for a string [key]. *)
Definition getitem (v : py_value) (key : string) : result py_value :=
  match v with
  | PDict entries =>
      match lookup key entries with
      | Some x => Ok x
      | None => Raise (Exn KeyError ("'" ++ key ++ "'"))
      end
  | PList _ => Raise (Exn TypeError "list indices must be integers or slices, not str")
  | PStr _ => Raise (Exn TypeError "string indices must be integers, not 'str'")
  | _ => Raise (Exn TypeError ("'" ++ type_name v ++ "' object is not subscriptable"))
  end.

(** [l[i]] for a list the code built and an index [i] that is not negative. *)
Definition list_item {A : Type} (l : list A) (i : nat) : result A :=
  match nth_error l i with
  | Some a => Ok a
  | None => Raise (Exn IndexError "list index out of range")
  end.

Definition chars (s : string) : list py_value :=
  map (fun c => PStr (String c EmptyString)) (list_ascii_of_string s).

(** The items a [for] loop over [v] visits. *)
Definition iterate (v : py_value) : result (list py_value) :=
  match v with
  | PList items => Ok items
  | PStr s => Ok (chars s)
  | PDict entries => Ok (map (fun kv => PStr (fst kv)) entries)
  | _ => Raise (Exn TypeError ("'" ++ type_name v ++ "' object is not iterable"))
  end.

(** [len(v)]. *)
Definition len (v : py_value) : result Z :=
  match v with
  | PList items => Ok (Z.of_nat (List.length items))
  | PStr s => Ok (Z.of_nat (String.length s))
  | PDict entries => Ok (Z.of_nat (List.length entries))
  | _ => Raise (Exn TypeError ("object of type '" ++ type_name v ++ "' has no len()"))
  end.

(** The number of elements [seq[:stop]] keeps of a sequence of [n]. *)
Definition slice_stop (n : nat) (stop : Z) : nat :=
  if 0 <=? stop then Nat.min n (Z.to_nat stop) else Z.to_nat (Z.of_nat n + stop).

(** [v[:stop]]. *)
Definition slice_to (v : py_value) (stop : Z) : result py_value :=
  match v with
  | PList items => Ok (PList (firstn (slice_stop (List.length items) stop) items))
  | PStr s => Ok (PStr (String.substring 0 (slice_stop (String.length s) stop) s))
  | PDict _ => Raise (Exn TypeError "unhashable type: 'slice'")
  | _ => Raise (Exn TypeError ("'" ++ type_name v ++ "' object is not subscriptable"))
  end.

(** *** Numbers *)

Definition Z_of_bool (b : bool) : Z := if b then 1 else 0.

Definition is_finite (x : spec_float) : bool :=
  match x with
  | S754_zero _ | S754_finite _ _ _ => true
  | S754_infinity _ | S754_nan => false
  end.

(** The double nearest to an integer (ties to even); it is not finite
    when the integer is beyond the range of doubles. *)
Definition spec_of_Z (n : Z) : spec_float := binary_normalize 53 1024 n 0 false.

Definition int_too_large {A : Type} : result A :=
  Raise (Exn OverflowError "int too large to convert to float").

(** [float(n)] for an integer. *)
Definition float_of_Z (n : Z) : result float :=
  if is_finite (spec_of_Z n) then Ok (SF2Prim (spec_of_Z n)) else int_too_large.

(** [x < n] for a float and an integer: Python compares the exact values. *)
Definition float_lt_Z (x : float) (n : Z) : bool :=
  match Prim2SF x with
  | S754_nan => false
  | S754_infinity s => s
  | S754_zero _ => 0 <? n
  | S754_finite s m e =>
      let v := if s then Z.neg m else Z.pos m in
      if 0 <=? e then v * 2 ^ e <? n else v <? n * 2 ^ (- e)
  end.

(** [v < n] for an integer literal [n]. *)
Definition lt_int (v : py_value) (n : Z) : result bool :=
  match v with
  | PInt m => Ok (m <? n)
  | PBool b => Ok (Z_of_bool b <? n)
  | PFloat x => Ok (float_lt_Z x n)
  | _ => Raise (Exn TypeError
                  ("'<' not supported between instances of '" ++ type_name v
                   ++ "' and 'int'"))
  end.

(** *** The format specification [.2f] *)

Definition two_digits (n : Z) : string :=
  (if n <? 10 then "0" else "") ++ PyStr.of_Z n.

(** The text of a count of hundredths. *)
Definition fixed2 (negative : bool) (hundredths : Z) : string :=
  (if negative then "-" else "")
  ++ PyStr.of_Z (hundredths / 100) ++ "." ++ two_digits (hundredths mod 100).

(** The integer nearest to [num / den], ties to even, for [0 < den]. *)
Definition round_half_even (num den : Z) : Z :=
  let q := num / den in
  let r := num mod den in
  if ((den <? 2 * r) || ((2 * r =? den) && Z.odd q))%bool then q + 1 else q.

(** The hundredths nearest to the exact value [m * 2 ^ e]. *)
Definition hundredths (m : positive) (e : Z) : Z :=
  if 0 <=? e then Z.pos m * 2 ^ e * 100
  else round_half_even (Z.pos m * 100) (2 ^ (- e)).

(** [format(x, '.2f')] for a double: the exact value rounded correctly
    to two decimals, the sign kept even when the digits are zero. *)
Definition format_2f_spec (x : spec_float) : string :=
  match x with
  | S754_zero s => fixed2 s 0
  | S754_infinity s => if s then "-inf" else "inf"
  | S754_nan => "nan"
  | S754_finite s m e => fixed2 s (hundredths m e)
  end.

Definition format_2f_float (x : float) : string := format_2f_spec (Prim2SF x).

(** An integer is converted to a float first. *)
Definition format_2f_int (n : Z) : result string :=
  if is_finite (spec_of_Z n) then Ok (format_2f_spec (spec_of_Z n)) else int_too_large.

(** [f"{v:.2f}"]. *)
Definition format_2f (v : py_value) : result string :=
  match v with
  | PFloat x => Ok (format_2f_float x)
  | PInt n => format_2f_int n
  | PBool b => format_2f_int (Z_of_bool b)
  | PStr _ => Raise (Exn ValueError "Unknown format code 'f' for object of type 'str'")
  | _ => Raise (Exn TypeError
                  ("unsupported format string passed to " ++ type_name v
                   ++ ".__format__"))
  end.

Section Runtime.
Variable rt : py_runtime.

(** [str(v)], which is also [f"{v}"]. *)
Definition str (v : py_value) : string :=
  match v with
  | PStr s => s
  | _ => repr rt v
  end.

(** [float(v)]. *)
Definition to_float (v : py_value) : result float :=
  match v with
  | PFloat x => Ok x
  | PInt n => float_of_Z n
  | PBool b => float_of_Z (Z_of_bool b)
  | PStr s =>
      match float_of_str rt s with
      | Some x => Ok x
      | None => Raise (Exn ValueError
                         ("could not convert string to float: " ++ repr rt v))
      end
  | _ => Raise (Exn TypeError
                  ("float() argument must be a string or a real number, not '"
                   ++ type_name v ++ "'"))
  end.

(** [int(s)] for a string. *)
Definition to_int (s : string) : result Z :=
  match int_of_str rt s with
  | Some n => Ok n
  | None => Raise (Exn ValueError
                     ("invalid literal for int() with base 10: " ++ repr rt (PStr s)))
  end.

(** [sum(xs)] for floats [xs], from the integer start value 0. *)
Definition sum_floats (xs : list float) : py_value :=
  match xs with
  | [] => PInt 0
  | _ :: _ => PFloat (float_sum rt xs)
  end.
End Runtime.

End Py.

(** ** Outbound calls and asynchronous methods *)

(** The arguments of [client.chat.completions.create]: the messages are
    pairs of a role and a content, and the response format is the type it
    names. *)
Record chat_request : Type := {
  chat_api_key : string;
  chat_model : string;
  chat_messages : list (string * string);
  chat_temperature : float;
  chat_response_format : string
}.

Record http_request : Type := {
  url : string;
  headers : list (string * string);
  timeout : float
}.

(** The outcome of [client.get]: it raised, or it gave a response with a
    status code whose [json()] gives a value or raises. *)
Inductive http_outcome : Type :=
| HttpRaised (e : exn)
| HttpResponse (status_code : Z) (json : result py_value).

(** An asynchronous method: it returns, raises, or awaits an outbound
    call and goes on with its outcome.  The outcome of a chat completion
    is the value of [json.loads(response.choices[0].message.content)], or
    the exception raised on the way to it. *)
Inductive prog (A : Type) : Type :=
| Return (a : A)
| Throw (e : exn)
| Chat (req : chat_request) (k : result py_value -> prog A)
| Get (req : http_request) (k : http_outcome -> prog A).

Arguments Return {A} a.
Arguments Throw {A} e.
Arguments Chat {A} req k.
Arguments Get {A} req k.

Fixpoint prog_bind {A B : Type} (p : prog A) (f : A -> prog B) : prog B :=
  match p with
  | Return a => f a
  | Throw e => Throw e
  | Chat req k => Chat req (fun o => prog_bind (k o) f)
  | Get req k => Get req (fun o => prog_bind (k o) f)
  end.

Notation "x <~ p ;; k" := (prog_bind p (fun x => k))
  (at level 61, p at next level, right associativity).

(** [try: p except Exception as e: handler(e)]. *)
Fixpoint try_except {A : Type} (p : prog A) (handler : exn -> prog A) : prog A :=
  match p with
  | Return a => Return a
  | Throw e => handler e
  | Chat req k => Chat req (fun o => try_except (k o) handler)
  | Get req k => Get req (fun o => try_except (k o) handler)
  end.

(** A synchronous call inside an asynchronous method. *)
Definition call {A : Type} (r : result A) : prog A :=
  match r with
  | Ok a => Return a
  | Raise e => Throw e
  end.

(** One run of a method against given answers of the two services. *)
Fixpoint run {A : Type} (chat : chat_request -> result py_value)
         (http : http_request -> http_outcome) (p : prog A) : result A :=
  match p with
  | Return a => Ok a
  | Throw e => Raise e
  | Chat req k => run chat http (k (chat req))
  | Get req k => run chat http (k (http req))
  end.

(** On every run, what the method returns satisfies [P] and what it
    raises satisfies [E]. *)
Fixpoint ensures {A : Type} (P : A -> Prop) (E : exn -> Prop) (p : prog A) : Prop :=
  match p with
  | Return a => P a
  | Throw e => E e
  | Chat _ k => forall o, ensures P E (k o)
  | Get _ k => forall o, ensures P E (k o)
  end.

(** On every run the method returns, and what it returns satisfies [P]. *)
Definition always_returns {A : Type} (P : A -> Prop) (p : prog A) : Prop :=
  ensures P (fun _ => False) p.

(** The method makes no outbound call. *)
Definition no_call {A : Type} (p : prog A) : Prop :=
  match p with
  | Return _ | Throw _ => True
  | Chat _ _ | Get _ _ => False
  end.

(** The method makes no Shopify request on any run. *)
Fixpoint no_request {A : Type} (p : prog A) : Prop :=
  match p with
  | Return _ | Throw _ => True
  | Chat _ k => forall o, no_request (k o)
  | Get _ _ => False
  end.

(** The method makes at most one Shopify request on any run. *)
Fixpoint at_most_one_request {A : Type} (p : prog A) : Prop :=
  match p with
  | Return _ | Throw _ => True
  | Chat _ k => forall o, at_most_one_request (k o)
  | Get _ k => forall o, no_request (k o)
  end.

(** [os.getenv(name, default)] in a process environment. *)
Definition environment : Type := string -> option string.

Definition getenv (env : environment) (name default : string) : string :=
  match env name with
  | Some v => v
  | None => default
  end.

(** ** [services/shopify_client.py] *)

Record ShopifyClient : Type := { api_version : string }.

Definition ShopifyClient__init__ : ShopifyClient := {| api_version := "2024-01" |}.

(** The dictionary [{"data": data, "success": True}]. *)
Definition fetched (data : py_value) : py_value :=
  PDict [("data", data); ("success", PBool true)].

(** [ShopifyClient._get_mock_data]. *)
Definition _get_mock_data (query_type query : py_value) : prog py_value :=
  if Py.eq_str query_type "inventory" then
    Return (fetched (PList [
      PDict [("product_id", PInt 1); ("product_name", PStr "Product A");
             ("quantity", PInt 15); ("location", PStr "Main Warehouse")];
      PDict [("product_id", PInt 2); ("product_name", PStr "Product B");
             ("quantity", PInt 5); ("location", PStr "Main Warehouse")];
      PDict [("product_id", PInt 3); ("product_name", PStr "Product C");
             ("quantity", PInt 45); ("location", PStr "Main Warehouse")]]))
  else if Py.eq_str query_type "products" then
    Return (fetched (PList [
      PDict [("id", PInt 1); ("title", PStr "Product X");
             ("price", PStr "29.99"); ("sales_count", PInt 150)];
      PDict [("id", PInt 2); ("title", PStr "Product Y");
             ("price", PStr "49.99"); ("sales_count", PInt 120)];
      PDict [("id", PInt 3); ("title", PStr "Product Z");
             ("price", PStr "19.99"); ("sales_count", PInt 100)]]))
  else if Py.eq_str query_type "sales" then
    Return (fetched (PDict [
      ("total_sales", PFloat 12500.50);
      ("order_count", PInt 45);
      ("average_order_value", PFloat 277.79);
      ("period", PStr "last 30 days")]))
  else if Py.eq_str query_type "customers" then
    Return (fetched (PDict [
      ("customer_count", PInt 120);
      ("repeat_customers", PInt 35);
      ("repeat_rate", PFloat 29.2)]))
  else
    Return (fetched (PDict [])).

(** [ShopifyClient._normalize_shop].  [split] never gives an empty list,
    so its item 0 is the head. *)
Definition _normalize_shop (store_id : string) : string :=
  let shop := PyStr.replace (PyStr.replace store_id "https://" "") "http://" "" in
  if negb (PyStr.endswith shop ".myshopify.com") then
    let shop := if PyStr.contains "." shop
                then hd EmptyString (PyStr.split shop ".")
                else shop in
    shop ++ ".myshopify.com"
  else shop.

(** The name of the environment variable that holds the token of a shop. *)
Definition access_token_variable (shop : string) : string :=
  "SHOPIFY_ACCESS_TOKEN_" ++ PyStr.replace shop "." "_".

Section Client.
Variable rt : py_runtime.
Variable env : environment.
Variable self : ShopifyClient.

Definition request (shop path access_token : string) : http_request :=
  {| url := "https://" ++ shop ++ "/admin/api/" ++ api_version self ++ path;
     headers := [("X-Shopify-Access-Token", access_token)];
     timeout := 10.0 |}.

(** The end of each live method: what its [try] block returned is
    returned; when the block ran through without a return, or raised
    (the handler is [pass]), the mock data is. *)
Definition or_mock (attempt : result (option py_value)) (mock : prog py_value)
  : prog py_value :=
  match attempt with
  | Ok (Some fetch_result) => Return fetch_result
  | Ok None => mock
  | Raise _ => mock
  end.

(** The [try] block of [_get_inventory_data]. *)
Definition inventory_attempt (outcome : http_outcome) : result (option py_value) :=
  match outcome with
  | HttpRaised e => Raise e
  | HttpResponse status_code json =>
      if status_code =? 200 then
        data <- json ;;
        levels <- Py.get data "inventory_levels" (PList []) ;;
        Ok (Some (fetched levels))
      else Ok None
  end.

(** [ShopifyClient._get_inventory_data]. *)
Definition _get_inventory_data (shop access_token : string) : prog py_value :=
  Get (request shop "/inventory_levels.json" access_token)
      (fun outcome =>
         or_mock (inventory_attempt outcome) (_get_mock_data (PStr "inventory") (PStr ""))).

(** The limit [_get_products_data] reads out of the upper-cased query:
    5 unless the text between the first [LIMIT] and the next one
    is an integer. *)
Definition query_limit (query_upper : string) : Z :=
  if PyStr.contains "LIMIT" query_upper then
    match (piece <- Py.list_item (PyStr.split query_upper "LIMIT") 1 ;;
           Py.to_int rt (PyStr.strip piece)) with
    | Ok n => n
    | Raise _ => 5
    end
  else 5.

(** The [try] block of [_get_products_data]. *)
Definition products_attempt (limit : Z) (outcome : http_outcome)
  : result (option py_value) :=
  match outcome with
  | HttpRaised e => Raise e
  | HttpResponse status_code json =>
      if status_code =? 200 then
        data <- json ;;
        products <- Py.get data "products" (PList []) ;;
        first_products <- Py.slice_to products limit ;;
        Ok (Some (fetched first_products))
      else Ok None
  end.

(** [ShopifyClient._get_products_data]: [query.upper()] is called
    outside of any [try]. *)
Definition _get_products_data (shop access_token : string) (query : py_value)
  : prog py_value :=
  match query with
  | PStr q =>
      let limit := query_limit (PyStr.upper q) in
      Get (request shop ("/products.json?limit=" ++ PyStr.of_Z limit) access_token)
          (fun outcome =>
             or_mock (products_attempt limit outcome)
                     (_get_mock_data (PStr "products") query))
  | _ => call (Py.no_attribute query "upper")
  end.

(** [float(order.get("total_price", 0))]. *)
Definition order_total (order : py_value) : result float :=
  price <- Py.get order "total_price" (PInt 0) ;;
  Py.to_float rt price.

(** The [try] block of [_get_orders_data]. *)
Definition orders_attempt (outcome : http_outcome) : result (option py_value) :=
  match outcome with
  | HttpRaised e => Raise e
  | HttpResponse status_code json =>
      if status_code =? 200 then
        data <- json ;;
        orders <- Py.get data "orders" (PList []) ;;
        each_order <- Py.iterate orders ;;
        totals <- result_map order_total each_order ;;
        let total_sales := Py.sum_floats rt totals in
        order_count <- Py.len orders ;;
        first_orders <- Py.slice_to orders 10 ;;
        Ok (Some (fetched (PDict [("total_sales", total_sales);
                                  ("order_count", PInt order_count);
                                  ("orders", first_orders)])))
      else Ok None
  end.

(** [ShopifyClient._get_orders_data]. *)
Definition _get_orders_data (shop access_token : string) (query : py_value)
  : prog py_value :=
  Get (request shop "/orders.json?status=any&limit=250" access_token)
      (fun outcome =>
         or_mock (orders_attempt outcome) (_get_mock_data (PStr "sales") query)).

(** The [try] block of [_get_customers_data]. *)
Definition customers_attempt (outcome : http_outcome) : result (option py_value) :=
  match outcome with
  | HttpRaised e => Raise e
  | HttpResponse status_code json =>
      if status_code =? 200 then
        data <- json ;;
        customers <- Py.get data "customers" (PList []) ;;
        customer_count <- Py.len customers ;;
        first_customers <- Py.slice_to customers 10 ;;
        Ok (Some (fetched (PDict [("customer_count", PInt customer_count);
                                  ("customers", first_customers)])))
      else Ok None
  end.

(** [ShopifyClient._get_customers_data]. *)
Definition _get_customers_data (shop access_token : string) (query : py_value)
  : prog py_value :=
  Get (request shop "/customers.json?limit=250" access_token)
      (fun outcome =>
         or_mock (customers_attempt outcome) (_get_mock_data (PStr "customers") query)).

(** [ShopifyClient.execute_query]. *)
Definition execute_query (store_id : string) (query query_type : py_value)
  : prog py_value :=
  let shop := _normalize_shop store_id in
  let access_token := getenv env (access_token_variable shop) "" in
  if negb (Py.truthy (PStr access_token)) then
    _get_mock_data query_type query
  else if Py.eq_str query_type "inventory" then
    _get_inventory_data shop access_token
  else if Py.eq_str query_type "products" then
    _get_products_data shop access_token query
  else if Py.eq_str query_type "sales" then
    _get_orders_data shop access_token query
  else if Py.eq_str query_type "customers" then
    _get_customers_data shop access_token query
  else
    _get_mock_data query_type query.

End Client.

(** ** [services/ai_agent.py] *)

Record AIAgent : Type := {
  client_api_key : string;
  shopify_client : ShopifyClient;
  model : string
}.

Definition AIAgent__init__ (env : environment) : AIAgent :=
  {| client_api_key := getenv env "OPENAI_API_KEY" "";
     shopify_client := ShopifyClient__init__;
     model := getenv env "OPENAI_MODEL" "gpt-4" |}.

(** The dictionary [{"intent": intent, "query": query}]. *)
Definition query_for (intent query : string) : py_value :=
  PDict [("intent", PStr intent); ("query", PStr query)].

(** The dictionary [{"answer": answer, "confidence": confidence}]. *)
Definition explanation (answer confidence : string) : py_value :=
  PDict [("answer", PStr answer); ("confidence", PStr confidence)].

(** [AIAgent._fallback_query_generation]. *)
Definition _fallback_query_generation (question : string) : py_value :=
  let question_lower := PyStr.lower question in
  if (PyStr.contains "inventory" question_lower
      || PyStr.contains "stock" question_lower)%bool then
    if (PyStr.contains "out of stock" question_lower
        || PyStr.contains "low" question_lower)%bool then
      query_for "inventory" "SHOW inventory_levels FROM products WHERE quantity < 20"
    else
      query_for "inventory" "SHOW inventory_levels FROM products"
  else if (PyStr.contains "top" question_lower
           && PyStr.contains "product" question_lower)%bool then
    let limit := 5 in
    let limit := if (PyStr.contains "5" question
                     || PyStr.contains "five" question_lower)%bool
                 then 5 else limit in
    query_for "products"
              ("SHOW top_selling_products FROM orders SINCE -7d LIMIT " ++ PyStr.of_Z limit)
  else if (PyStr.contains "customer" question_lower
           || PyStr.contains "repeat" question_lower)%bool then
    query_for "customers" "SHOW repeat_customers FROM orders SINCE -90d"
  else if (PyStr.contains "sales" question_lower
           || PyStr.contains "revenue" question_lower)%bool then
    query_for "sales" "SHOW total_sales FROM orders SINCE -30d"
  else
    query_for "sales" "SHOW total_sales FROM orders SINCE -30d".

(** The test of the comprehension in the inventory explanation:
    [item.get("quantity", 0) < 20]. *)
Definition is_low_stock (item : py_value) : result bool :=
  quantity <- Py.get item "quantity" (PInt 0) ;;
  Py.lt_int quantity 20.

(** [len(l)] in a text. *)
Definition count_text {A : Type} (l : list A) : string :=
  PyStr.of_Z (Z.of_nat (List.length l)).

Section Agent.
Variable rt : py_runtime.
Variable env : environment.

(** [AIAgent._fallback_explanation]. *)
Definition _fallback_explanation (question : string) (data query_type : py_value)
  : result py_value :=
  let otherwise :=
    Ok (explanation ("Retrieved " ++ Py.str rt query_type
                     ++ " data. Review the details for insights.") "medium") in
  if negb (Py.truthy data) then
    Ok (explanation
          "I couldn't retrieve the requested data. Please check your store connection and try again."
          "low")
  else if Py.eq_str query_type "inventory" then
    match data with
    | PList items =>
        if (0 <? Z.of_nat (List.length items)) then
          low_stock <- result_filter is_low_stock items ;;
          Ok (explanation
                ("Found " ++ count_text low_stock
                 ++ " products with low inventory (less than 20 units). Consider reordering soon.")
                "medium")
        else
          Ok (explanation
                "Inventory data retrieved. Review the details to make reordering decisions."
                "medium")
    | _ =>
        Ok (explanation
              "Inventory data retrieved. Review the details to make reordering decisions."
              "medium")
    end
  else if Py.eq_str query_type "products" then
    match data with
    | PList items =>
        Ok (explanation
              ("Found " ++ count_text items
               ++ " top-selling products. Review the list to identify your best performers.")
              "medium")
    | _ => otherwise
    end
  else if Py.eq_str query_type "sales" then
    sales <- Py.get data "sales" (PInt 0) ;;
    total <- Py.get data "total_sales" sales ;;
    amount <- Py.format_2f total ;;
    Ok (explanation ("Total sales: $" ++ amount ++ " for the requested period.") "medium")
  else
    otherwise.

Variable self : AIAgent.

Definition completion (system_prompt user_prompt : string) (temperature : float)
  : chat_request :=
  {| chat_api_key := client_api_key self;
     chat_model := model self;
     chat_messages := [("system", system_prompt); ("user", user_prompt)];
     chat_temperature := temperature;
     chat_response_format := "json_object" |}.

(** The prompts of [_generate_shopifyql_query]. *)
Definition query_system_prompt : string :=
  "You are an expert at analyzing Shopify store data and generating ShopifyQL queries.

ShopifyQL is a query language for Shopify Analytics. Common query patterns:

1. Sales queries:
   - SHOW sales FROM orders SINCE -30d UNTIL today
   - SHOW total_sales FROM orders WHERE created_at >= '2024-01-01'
   - SHOW top_products FROM orders SINCE -7d

2. Inventory queries:
   - SHOW inventory_levels FROM products
   - SHOW low_stock_items FROM inventory WHERE quantity < 10

3. Customer queries:
   - SHOW repeat_customers FROM orders SINCE -90d
   - SHOW customer_count FROM customers

4. Product queries:
   - SHOW top_selling_products FROM orders SINCE -7d LIMIT 5
   - SHOW product_performance FROM orders WHERE created_at >= '2024-01-01'

Based on the user's question, determine:
1. The intent (sales, inventory, customers, products)
2. The appropriate ShopifyQL query
3. Any time periods mentioned

Return a JSON object with:
- intent: one of "
  ++ PyStr.dquote
  ++ "sales"
  ++ PyStr.dquote
  ++ ", "
  ++ PyStr.dquote
  ++ "inventory"
  ++ PyStr.dquote
  ++ ", "
  ++ PyStr.dquote
  ++ "customers"
  ++ PyStr.dquote
  ++ ", "
  ++ PyStr.dquote
  ++ "products"
  ++ PyStr.dquote
  ++ "
- query: the ShopifyQL query string
- reasoning: brief explanation of why this query fits the question
".

Definition query_user_prompt (question : string) : string :=
  "User question: "
  ++ PyStr.dquote
  ++ question
  ++ PyStr.dquote
  ++ "

Generate the appropriate ShopifyQL query. If the question is ambiguous or cannot be answered with Shopify data, return an error message.".

(** The prompts of [_generate_explanation]. *)
Definition explanation_system_prompt : string :=
  "You are a business analyst who explains Shopify store data in simple, actionable language.

Convert technical data into clear insights that a store owner can understand and act upon.
Be specific with numbers, timeframes, and recommendations.
Keep explanations concise (2-3 sentences max).
".

Definition explanation_user_prompt (question : string) (data query_type : py_value)
  : string :=
  "Original question: "
  ++ PyStr.dquote
  ++ question
  ++ PyStr.dquote
  ++ "

Query type: "
  ++ Py.str rt query_type
  ++ "

Data retrieved: "
  ++ json_dumps rt data
  ++ "

Generate a clear, business-friendly answer. Include:
- Key numbers/metrics
- Time period if relevant
- Actionable recommendations if applicable
- Confidence level (high/medium/low) based on data completeness

Return JSON with:
- answer: the explanation
- confidence: high/medium/low
".

(** The [try] block of [_generate_shopifyql_query], after the call. *)
Definition query_of_completion (outcome : result py_value) : result py_value :=
  result <- outcome ;;
  error <- Py.get result "error" PNone ;;
  if Py.truthy error then
    error <- Py.getitem result "error" ;;
    Ok (PDict [("error", error)])
  else
    intent <- Py.get result "intent" (PStr "sales") ;;
    query <- Py.get result "query" (PStr "") ;;
    reasoning <- Py.get result "reasoning" (PStr "") ;;
    Ok (PDict [("intent", intent); ("query", query); ("reasoning", reasoning)]).

(** [AIAgent._generate_shopifyql_query]. *)
Definition _generate_shopifyql_query (question store_id : string) : prog py_value :=
  Chat (completion query_system_prompt (query_user_prompt question) 0.3)
       (fun outcome =>
          match query_of_completion outcome with
          | Ok query_result => Return query_result
          | Raise _ => Return (_fallback_query_generation question)
          end).

(** The [try] block of [_generate_explanation], after the call. *)
Definition explanation_of_completion (outcome : result py_value) : result py_value :=
  result <- outcome ;;
  answer <- Py.get result "answer" (PStr "Unable to generate explanation") ;;
  confidence <- Py.get result "confidence" (PStr "medium") ;;
  Ok (PDict [("answer", answer); ("confidence", confidence)]).

(** [AIAgent._generate_explanation]. *)
Definition _generate_explanation (question : string) (data query_type : py_value)
  : prog py_value :=
  Chat (completion explanation_system_prompt
                   (explanation_user_prompt question data query_type) 0.5)
       (fun outcome =>
          match explanation_of_completion outcome with
          | Ok answer => Return answer
          | Raise _ => call (_fallback_explanation question data query_type)
          end).

(** The body of the [try] of [process_question]. *)
Definition pipeline (question store_id : string) : prog py_value :=
  query_result <~ _generate_shopifyql_query question store_id ;;
  error <~ call (Py.get query_result "error" PNone) ;;
  if Py.truthy error then
    Return query_result
  else
    shopifyql_query <~ call (Py.get query_result "query" PNone) ;;
    intent <~ call (Py.get query_result "intent" PNone) ;;
    data_result <~ execute_query rt env (shopify_client self)
                                 store_id shopifyql_query intent ;;
    fetch_error <~ call (Py.get data_result "error" PNone) ;;
    if Py.truthy fetch_error then
      fetch_error <~ call (Py.getitem data_result "error") ;;
      Return (PDict [("error", PStr ("Failed to execute query: " ++ Py.str rt fetch_error));
                     ("query_used", shopifyql_query)])
    else
      data <~ call (Py.get data_result "data" (PDict [])) ;;
      answer <~ _generate_explanation question data intent ;;
      text <~ call (Py.get answer "answer" (PStr "Unable to generate answer")) ;;
      confidence <~ call (Py.get answer "confidence" (PStr "medium")) ;;
      data <~ call (Py.get data_result "data" PNone) ;;
      Return (PDict [("answer", text);
                     ("confidence", confidence);
                     ("query_used", shopifyql_query);
                     ("data", data)]).

(** [AIAgent.process_question]. *)
Definition process_question (question store_id : string) : prog py_value :=
  try_except (pipeline question store_id)
             (fun e => Return (PDict [("error",
                                       PStr ("Agent processing error: " ++ exn_message e))])).

End Agent.

(** ** The shapes of data the fallback explanation handles *)

(** A number: what [< 20] compares without raising. *)
Definition is_number (v : py_value) : bool :=
  match v with
  | PInt _ | PBool _ | PFloat _ => true
  | _ => false
  end.

(** An inventory record: a dictionary whose quantity, if it has one, is
    a number. *)
Definition is_record (item : py_value) : bool :=
  match item with
  | PDict entries =>
      match Py.lookup "quantity" entries with
      | Some quantity => is_number quantity
      | None => true
      end
  | _ => false
  end.

(** A number that [.2f] formats: an integer within the range of doubles,
    or a float (an infinity and a NaN are formatted too, without digits). *)
Definition is_formattable (v : py_value) : bool :=
  match v with
  | PInt n => Py.is_finite (Py.spec_of_Z n)
  | PBool _ | PFloat _ => true
  | _ => false
  end.

(** A finite number. *)
Definition is_finite_number (v : py_value) : bool :=
  match v with
  | PInt n => Py.is_finite (Py.spec_of_Z n)
  | PBool _ => true
  | PFloat x => Py.is_finite (Prim2SF x)
  | _ => false
  end.

(** The total the sales explanation reads out of a dictionary:
    [data.get("total_sales", data.get("sales", 0))]. *)
Definition sales_total (entries : list (string * py_value)) : py_value :=
  Py.dict_get entries "total_sales" (Py.dict_get entries "sales" (PInt 0)).

(** The inputs on which [_fallback_explanation] returns. *)
Definition explainable (data query_type : py_value) : bool :=
  if negb (Py.truthy data) then true
  else if Py.eq_str query_type "inventory" then
    match data with
    | PList items => forallb is_record items
    | _ => true
    end
  else if Py.eq_str query_type "products" then true
  else if Py.eq_str query_type "sales" then
    match data with
    | PDict entries => is_formattable (sales_total entries)
    | _ => false
    end
  else true.

Definition is_digit (c : ascii) : bool := PyStr.between 48 57 c.

(** A text that ends with a point and two digits. *)
Definition two_decimals (text : string) : Prop :=
  exists (whole : string) (d1 d2 : ascii),
    text = (whole ++ "." ++ String d1 (String d2 EmptyString))%string
    /\ is_digit d1 = true /\ is_digit d2 = true.

(** What a fetch result says: success, and no error. *)
Definition succeeded (fetch_result : py_value) : Prop :=
  exists entries,
    fetch_result = PDict entries
    /\ Py.lookup "success" entries = Some (PBool true)
    /\ Py.lookup "error" entries = None.

(** The failures of the Shopify request: the call raised, the status is
    not 200, or the body is not JSON. *)
Definition request_failed (outcome : http_outcome) : Prop :=
  match outcome with
  | HttpRaised _ => True
  | HttpResponse status_code json => status_code <> 200 \/ exists e, json = Raise e
  end.

(** The dictionary of the branch of [process_question] that reports a
    failed query. *)
Definition is_query_failure (response : py_value) : Prop :=
  exists (message : string) (query : py_value),
    response = PDict [("error", PStr ("Failed to execute query: " ++ message));
                      ("query_used", query)].

(** The check that [two_digits] gives two digits. *)
Definition two_digits_checked (n : Z) : bool :=
  match Py.two_digits n with
  | String d1 (String d2 EmptyString) => (is_digit d1 && is_digit d2)%bool
  | _ => false
  end.

(** A dictionary. *)
Definition is_dict (v : py_value) : Prop := exists entries, v = PDict entries.

(** What the classifier returns: the error of the model alone, or a
    dictionary with no error. *)
Definition query_result_shape (query_result : py_value) : Prop :=
  (exists error, query_result = PDict [("error", error)])
  \/ (exists entries, query_result = PDict entries /\ Py.lookup "error" entries = None).

(** ** The end-to-end scenario of the specification *)

Definition top_products_question : string := "what are my top 5 selling products".

Definition top_products_query : string :=
  "SHOW top_selling_products FROM orders SINCE -7d LIMIT 5".

Definition mock_products : py_value :=
  PList [PDict [("id", PInt 1); ("title", PStr "Product X");
                ("price", PStr "29.99"); ("sales_count", PInt 150)];
         PDict [("id", PInt 2); ("title", PStr "Product Y");
                ("price", PStr "49.99"); ("sales_count", PInt 120)];
         PDict [("id", PInt 3); ("title", PStr "Product Z");
                ("price", PStr "19.99"); ("sales_count", PInt 100)]].

(** An environment that holds a token for the store my-shop. *)
Definition env_with_token : environment :=
  fun name =>
    if String.eqb name "SHOPIFY_ACCESS_TOKEN_my-shop_myshopify_com"
    then Some "shpat_example" else None.


(** ** [main.py] *)

(** The validated body of a request to the endpoint. *)
Record QuestionRequest : Type := {
  request_store_id : string;
  request_question : string
}.

(** [HTTPException(status_code, detail)] of the web framework, which is a
    subclass of [Exception]. *)
Inductive http_exception : Type :=
| HTTPException (status_code : Z) (detail : py_value).

(** What the web framework computes by code of its own: the construction
    of the response model [QuestionResponse(answer=..., confidence=...,
    query_used=..., data=...)], which gives the validated model or raises
    a validation error, and the text [str(e)] of an [HTTPException]. *)
Record web_framework : Type := {
  QuestionResponse : py_value -> py_value -> py_value -> py_value -> result py_value;
  http_exception_str : Z -> py_value -> string
}.

(** How a call of the endpoint ends: with a response model, or with an
    [HTTPException] that leaves the function. *)
Inductive endpoint_result : Type :=
| Responded (response : py_value)
| Raised (e : http_exception).

(** A block run to its end: the value it returns or the exception it
    raises. *)
Definition attempt {A : Type} (p : prog A) : prog (result A) :=
  try_except (a <~ p ;; Return (Ok a)) (fun e => Return (Raise e)).

Section Main.
Variable rt : py_runtime.
Variable fw : web_framework.
Variable env : environment.

(** The [try] block of [analyze_question]; it ends with the response
    model, or by raising an [HTTPException] ([inl]), or by raising
    another exception.  The construction of the agent and of the client
    is taken not to fail. *)
Definition analyze_question_body (request : QuestionRequest)
  : prog (http_exception + py_value) :=
  let agent := AIAgent__init__ env in
  let shopify_client := ShopifyClient__init__ in
  result <~ process_question rt env agent
            (request_question request) (request_store_id request) ;;
  error <~ call (Py.get result "error" PNone) ;;
  if Py.truthy error then
    detail <~ call (Py.getitem result "error") ;;
    Return (inl (HTTPException 400 detail))
  else
    answer <~ call (Py.get result "answer" (PStr "Unable to generate answer")) ;;
    confidence <~ call (Py.get result "confidence" (PStr "low")) ;;
    query_used <~ call (Py.get result "query_used" PNone) ;;
    data <~ call (Py.get result "data" PNone) ;;
    response <~ call (QuestionResponse fw answer confidence query_used data) ;;
    Return (inr response).

(** [analyze_question]: the handler [except Exception as e] receives
    every exception of the block, an [HTTPException] raised in it
    included. *)
Definition analyze_question (request : QuestionRequest) : prog endpoint_result :=
  outcome <~ attempt (analyze_question_body request) ;;
  match outcome with
  | Ok (inr response) => Return (Responded response)
  | Ok (inl (HTTPException status_code detail)) =>
      Return (Raised (HTTPException 500
                (PStr ("Internal server error: "
                       ++ http_exception_str fw status_code detail))))
  | Raise e =>
      Return (Raised (HTTPException 500
                (PStr ("Internal server error: " ++ exn_message e))))
  end.

End Main.

(** [root]. *)
Definition root : py_value :=
  PDict [("message", PStr "Shopify AI Analytics Service"); ("status", PStr "running")].

(** ** Further predicates on methods and results *)

(** On every run the method makes at most [chats] chat completions and
    at most [requests] Shopify requests. *)
Fixpoint within {A : Type} (p : prog A) (chats requests : nat) : Prop :=
  match p with
  | Return _ | Throw _ => True
  | Chat _ k =>
      match chats with
      | O => False
      | S chats' => forall o, within (k o) chats' requests
      end
  | Get _ k =>
      match requests with
      | O => False
      | S requests' => forall o, within (k o) chats requests'
      end
  end.

(** The two shapes of what [process_question] returns. *)
Definition is_error_response (response : py_value) : Prop :=
  exists error, response = PDict [("error", error)].

Definition is_answer_response (response : py_value) : Prop :=
  exists answer confidence query_used data,
    response = PDict [("answer", answer); ("confidence", confidence);
                      ("query_used", query_used); ("data", data)].

(** The four intents and the five queries of the fallback classifier. *)
Definition fallback_queries : list py_value :=
  [query_for "inventory" "SHOW inventory_levels FROM products WHERE quantity < 20";
   query_for "inventory" "SHOW inventory_levels FROM products";
   query_for "products" "SHOW top_selling_products FROM orders SINCE -7d LIMIT 5";
   query_for "customers" "SHOW repeat_customers FROM orders SINCE -90d";
   query_for "sales" "SHOW total_sales FROM orders SINCE -30d"].

(** The keywords the fallback classifier looks for. *)
Definition fallback_keywords : list string :=
  ["inventory"; "stock"; "top"; "product"; "customer"; "repeat"; "sales"; "revenue"].

(** The answers of the pipeline when no service is reachable: for each
    intent, the fallback explanation of its mock data. *)
Definition offline_answers : list string :=
  ["Found 2 products with low inventory (less than 20 units). Consider reordering soon.";
   "Found 3 top-selling products. Review the list to identify your best performers.";
   "Retrieved customers data. Review the details for insights.";
   "Total sales: $12500.50 for the requested period."].

(** A dictionary without the key [quantity]. *)
Definition lacks_quantity (item : py_value) : bool :=
  match item with
  | PDict entries =>
      match Py.lookup "quantity" entries with
      | None => true
      | Some _ => false
      end
  | _ => false
  end.

(** An intent that is none of the four the fetcher knows. *)
Definition is_unknown_intent (query_type : py_value) : bool :=
  negb (Py.eq_str query_type "inventory" || Py.eq_str query_type "products"
        || Py.eq_str query_type "sales" || Py.eq_str query_type "customers").
(** ** The string operations on concrete inputs *)

Example replace_ex1 : PyStr.replace "https://a.b" "https://" "" = "a.b".
Proof. reflexivity. Qed.
Example replace_ex2 : PyStr.replace "aaa" "aa" "b" = "ba".
Proof. reflexivity. Qed.
Example replace_ex3 : PyStr.replace "hhttp://ttp://a" "http://" "" = "http://a".
Proof. reflexivity. Qed.
Example replace_ex4 : PyStr.replace "abc" "" "-" = "-a-b-c-".
Proof. reflexivity. Qed.
Example split_ex1 : PyStr.split "a.b.c" "." = ["a"; "b"; "c"].
Proof. reflexivity. Qed.
Example split_ex2 : PyStr.split "abc" "." = ["abc"].
Proof. reflexivity. Qed.
Example split_ex3 : PyStr.split ".a." "." = [""; "a"; ""].
Proof. reflexivity. Qed.
Example split_ex4 : PyStr.split "x LIMIT 5" "LIMIT" = ["x "; " 5"].
Proof. reflexivity. Qed.
Example strip_ex1 : PyStr.strip "  5 " = "5".
Proof. reflexivity. Qed.
Example lower_ex1 : PyStr.lower "Top PRODUCTS z@[`{" = "top products z@[`{".
Proof. reflexivity. Qed.
Example upper_ex1 : PyStr.upper "limit 5 az" = "LIMIT 5 AZ".
Proof. reflexivity. Qed.
Example of_Z_ex : (PyStr.of_Z 0, PyStr.of_Z 45, PyStr.of_Z (-7)) = ("0", "45", "-7").
Proof. reflexivity. Qed.
Example endswith_ex : (PyStr.endswith "a.myshopify.com" ".myshopify.com",
                       PyStr.endswith "myshopify.com" ".myshopify.com",
                       PyStr.endswith "" "") = (true, false, true).
Proof. reflexivity. Qed.

(** ** Store identifier normalization *)

Lemma contains_tail (sub s : string) (c : ascii) :
  PyStr.contains sub (String c s) = false ->
  prefix sub (String c s) = false /\ PyStr.contains sub s = false.
Proof.
  intros H. change (PyStr.contains sub (String c s))
    with (prefix sub (String c s) || PyStr.contains sub s)%bool in H.
  now apply orb_false_iff in H.
Qed.

Lemma contains_empty (s : string) : PyStr.contains "" s = true.
Proof. destruct s; reflexivity. Qed.

(** A text in which [old] does not occur is left as it is. *)
Lemma replace_from_absent (old new s : string) :
  PyStr.contains old s = false -> PyStr.replace_from old new 0 s = s.
Proof.
  induction s as [| c s IH]; intros H; [reflexivity |].
  apply contains_tail in H. destruct H as [Hp Hs].
  cbn [PyStr.replace_from]. rewrite Hp. f_equal. now apply IH.
Qed.

Lemma replace_absent (s old new : string) :
  PyStr.contains old s = false -> PyStr.replace s old new = s.
Proof.
  intros H. destruct old as [| c old].
  - rewrite contains_empty in H. discriminate.
  - unfold PyStr.replace. now apply replace_from_absent.
Qed.

Lemma endswith_self (s : string) : PyStr.endswith s s = true.
Proof. destruct s; cbn [PyStr.endswith]; now rewrite String.eqb_refl. Qed.

Lemma endswith_append (s suffix : string) : PyStr.endswith (s ++ suffix) suffix = true.
Proof.
  induction s as [| c s IH].
  - apply endswith_self.
  - cbn [append PyStr.endswith]. rewrite IH. apply orb_true_r.
Qed.

(** A canonical store domain: it ends with the store-domain suffix and
    holds no scheme text. *)
Definition is_canonical (shop : string) : bool :=
  (PyStr.endswith shop ".myshopify.com"
   && negb (PyStr.contains "https://" shop)
   && negb (PyStr.contains "http://" shop))%bool.

Lemma is_canonical_inv (shop : string) :
  is_canonical shop = true ->
  PyStr.endswith shop ".myshopify.com" = true
  /\ PyStr.contains "https://" shop = false
  /\ PyStr.contains "http://" shop = false.
Proof.
  unfold is_canonical. intros H.
  apply andb_true_iff in H. destruct H as [H H3].
  apply andb_true_iff in H. destruct H as [H1 H2].
  apply negb_true_iff in H2, H3. auto.
Qed.

(** Whatever the input, the result ends with the store-domain suffix. *)
Lemma normalize_shop_suffix (store_id : string) :
  PyStr.endswith (_normalize_shop store_id) ".myshopify.com" = true.
Proof.
  unfold _normalize_shop.
  set (shop := PyStr.replace (PyStr.replace store_id "https://" "") "http://" "").
  destruct (PyStr.endswith shop ".myshopify.com") eqn:E; cbn [negb].
  - exact E.
  - apply endswith_append.
Qed.

Example normalize_shop_bare : _normalize_shop "my-shop" = "my-shop.myshopify.com".
Proof. reflexivity. Qed.

Example normalize_shop_url :
  _normalize_shop "https://my-shop.example.com" = "my-shop.myshopify.com".
Proof. reflexivity. Qed.

Example normalize_shop_domain :
  _normalize_shop "http://my-shop.myshopify.com" = "my-shop.myshopify.com".
Proof. reflexivity. Qed.

Example access_token_variable_my_shop :
  access_token_variable (_normalize_shop "my-shop")
  = "SHOPIFY_ACCESS_TOKEN_my-shop_myshopify_com".
Proof. reflexivity. Qed.

Lemma normalize_shop_fixed (shop : string) :
  is_canonical shop = true -> _normalize_shop shop = shop.
Proof.
  intros H. apply is_canonical_inv in H. destruct H as (H1 & H2 & H3).
  unfold _normalize_shop.
  rewrite (replace_absent _ _ "" H2), (replace_absent _ _ "" H3), H1. reflexivity.
Qed.

(** C8 (as stated, refuted): normalizing twice is not always normalizing
    once.  Removing the occurrence of [http://] from [hhttp://ttp://a]
    joins the characters around it into a new [http://], which the first
    normalization keeps and the second removes.  And a store domain that
    ends with the suffix and does not start with a scheme is changed when
    a scheme text stands inside it. *)
Lemma normalize_shop_not_idempotent :
  (_normalize_shop "hhttp://ttp://a" = "http://a.myshopify.com"
   /\ _normalize_shop (_normalize_shop "hhttp://ttp://a") = "a.myshopify.com"
   /\ _normalize_shop (_normalize_shop "hhttp://ttp://a")
      <> _normalize_shop "hhttp://ttp://a")
  /\ (PyStr.endswith "shttp://hop.myshopify.com" ".myshopify.com" = true
      /\ prefix "https://" "shttp://hop.myshopify.com" = false
      /\ prefix "http://" "shttp://hop.myshopify.com" = false
      /\ _normalize_shop "shttp://hop.myshopify.com" = "shop.myshopify.com").
Proof.
  split; [split; [reflexivity | split; [reflexivity |]] | repeat split; reflexivity].
  vm_compute. discriminate.
Qed.

(** C8 (amended): a store domain that ends with [.myshopify.com] and
    holds neither [https://] nor [http://] anywhere is returned
    unchanged; the result of a normalization always ends with
    [.myshopify.com], so normalizing it again changes nothing whenever it
    holds no scheme text. *)
Theorem normalize_shop_idempotent_on_canonical (store_id : string) :
  (is_canonical store_id = true -> _normalize_shop store_id = store_id)
  /\ PyStr.endswith (_normalize_shop store_id) ".myshopify.com" = true
  /\ (PyStr.contains "https://" (_normalize_shop store_id) = false ->
      PyStr.contains "http://" (_normalize_shop store_id) = false ->
      _normalize_shop (_normalize_shop store_id) = _normalize_shop store_id).
Proof.
  split; [apply normalize_shop_fixed | split; [apply normalize_shop_suffix |]].
  intros H1 H2. apply normalize_shop_fixed. unfold is_canonical.
  now rewrite normalize_shop_suffix, H1, H2.
Qed.

Lemma normalize_shop_idempotent_on_canonical_witness :
  (is_canonical "my-shop.myshopify.com" = true
   /\ _normalize_shop "my-shop.myshopify.com" = "my-shop.myshopify.com")
  /\ (PyStr.contains "https://" (_normalize_shop "https://my-shop.example.com") = false
      /\ PyStr.contains "http://" (_normalize_shop "https://my-shop.example.com") = false
      /\ _normalize_shop (_normalize_shop "https://my-shop.example.com")
         = _normalize_shop "https://my-shop.example.com").
Proof.
  split.
  - split; [reflexivity |].
    apply (proj1 (normalize_shop_idempotent_on_canonical "my-shop.myshopify.com")).
    reflexivity.
  - split; [reflexivity | split; [reflexivity |]].
    apply (proj2 (proj2 (normalize_shop_idempotent_on_canonical
                           "https://my-shop.example.com"))); reflexivity.
Defined.

(** ** The fallback classifier *)

Example fallback_query_sales :
  _fallback_query_generation "How much REVENUE did we make?"
  = query_for "sales" "SHOW total_sales FROM orders SINCE -30d".
Proof. reflexivity. Qed.

Example fallback_query_customers :
  _fallback_query_generation "Who are my repeat buyers?"
  = query_for "customers" "SHOW repeat_customers FROM orders SINCE -90d".
Proof. reflexivity. Qed.

Example fallback_query_inventory :
  _fallback_query_generation "What is in Stock?"
  = query_for "inventory" "SHOW inventory_levels FROM products".
Proof. reflexivity. Qed.

(** C4 (as stated, refuted): the inventory keywords are tested first, so
    a question that holds [top] and [product] and also [stock] is
    classified as inventory. *)
Lemma top_product_question_classified_inventory :
  PyStr.contains "top" (PyStr.lower "Top products in stock") = true
  /\ PyStr.contains "product" (PyStr.lower "Top products in stock") = true
  /\ _fallback_query_generation "Top products in stock"
     = query_for "inventory" "SHOW inventory_levels FROM products"
  /\ Py.get (_fallback_query_generation "Top products in stock") "intent" PNone
     <> Ok (PStr "products").
Proof. repeat split; try reflexivity. vm_compute. discriminate. Qed.

(** C4 (amended): for every question whose lower-cased text holds both
    [top] and [product] and neither [inventory] nor [stock], the fallback
    classifier gives the intent products and a query whose LIMIT is 5. *)
Theorem fallback_query_top_products (question : string) :
  PyStr.contains "top" (PyStr.lower question) = true ->
  PyStr.contains "product" (PyStr.lower question) = true ->
  PyStr.contains "inventory" (PyStr.lower question) = false ->
  PyStr.contains "stock" (PyStr.lower question) = false ->
  _fallback_query_generation question
  = query_for "products" "SHOW top_selling_products FROM orders SINCE -7d LIMIT 5"
  /\ Py.get (_fallback_query_generation question) "intent" PNone = Ok (PStr "products").
Proof.
  intros Htop Hproduct Hinventory Hstock.
  assert (E : _fallback_query_generation question
              = query_for "products"
                          "SHOW top_selling_products FROM orders SINCE -7d LIMIT 5").
  { unfold _fallback_query_generation.
    rewrite Hinventory, Hstock, Htop, Hproduct. cbn [orb andb].
    destruct (PyStr.contains "5" question || PyStr.contains "five" (PyStr.lower question))%bool;
      reflexivity. }
  split; [exact E | rewrite E; reflexivity].
Qed.

Lemma fallback_query_top_products_witness :
  PyStr.contains "top" (PyStr.lower "what are my top 5 selling products") = true
  /\ _fallback_query_generation "what are my top 5 selling products"
     = query_for "products" "SHOW top_selling_products FROM orders SINCE -7d LIMIT 5".
Proof.
  split; [reflexivity |].
  apply (fallback_query_top_products "what are my top 5 selling products");
    reflexivity.
Defined.

(** C5: for every question whose lower-cased text holds both [inventory]
    and [low], the fallback classifier gives the intent inventory and the
    query with the threshold [quantity < 20]. *)
Theorem fallback_query_low_inventory (question : string) :
  PyStr.contains "inventory" (PyStr.lower question) = true ->
  PyStr.contains "low" (PyStr.lower question) = true ->
  _fallback_query_generation question
  = query_for "inventory" "SHOW inventory_levels FROM products WHERE quantity < 20"
  /\ Py.get (_fallback_query_generation question) "intent" PNone = Ok (PStr "inventory")
  /\ exists query,
      Py.get (_fallback_query_generation question) "query" PNone = Ok (PStr query)
      /\ PyStr.contains "quantity < 20" query = true.
Proof.
  intros Hinventory Hlow.
  assert (E : _fallback_query_generation question
              = query_for "inventory"
                          "SHOW inventory_levels FROM products WHERE quantity < 20").
  { unfold _fallback_query_generation. rewrite Hinventory, Hlow.
    cbn [orb]. rewrite orb_true_r. reflexivity. }
  rewrite E. split; [reflexivity | split; [reflexivity |]].
  eexists. split; reflexivity.
Qed.

Lemma fallback_query_low_inventory_witness :
  PyStr.contains "inventory" (PyStr.lower "Which inventory items are running LOW?") = true
  /\ PyStr.contains "low" (PyStr.lower "Which inventory items are running LOW?") = true
  /\ _fallback_query_generation "Which inventory items are running LOW?"
     = query_for "inventory" "SHOW inventory_levels FROM products WHERE quantity < 20".
Proof.
  split; [reflexivity | split; [reflexivity |]].
  apply (fallback_query_low_inventory "Which inventory items are running LOW?");
    reflexivity.
Defined.

(** ** The fallback explanation *)

Section FallbackExplanation.
Variable rt : py_runtime.

Example fallback_explanation_mock_inventory :
  _fallback_explanation rt "what is low?"
    (PList [PDict [("product_name", PStr "Product A"); ("quantity", PInt 15)];
            PDict [("product_name", PStr "Product B"); ("quantity", PInt 5)];
            PDict [("product_name", PStr "Product C"); ("quantity", PInt 45)]])
    (PStr "inventory")
  = Ok (explanation
          "Found 2 products with low inventory (less than 20 units). Consider reordering soon."
          "medium").
Proof. reflexivity. Qed.

Example fallback_explanation_mock_sales :
  _fallback_explanation rt "sales?"
    (PDict [("total_sales", PFloat 12500.50); ("order_count", PInt 45)]) (PStr "sales")
  = Ok (explanation "Total sales: $12500.50 for the requested period." "medium").
Proof. reflexivity. Qed.

Example fallback_explanation_sales_field :
  _fallback_explanation rt "sales?" (PDict [("sales", PInt 7)]) (PStr "sales")
  = Ok (explanation "Total sales: $7.00 for the requested period." "medium").
Proof. reflexivity. Qed.

Example fallback_explanation_no_field :
  _fallback_explanation rt "sales?" (PDict [("order_count", PInt 45)]) (PStr "sales")
  = Ok (explanation "Total sales: $0.00 for the requested period." "medium").
Proof. reflexivity. Qed.

(** C6: on data that is empty or falsy, whatever the question and the
    intent, the fallback explanation is the fixed message that asks to
    check the store connection, with the confidence low. *)
Theorem fallback_explanation_no_data (question : string) (data query_type : py_value) :
  Py.truthy data = false ->
  _fallback_explanation rt question data query_type
  = Ok (explanation
          "I couldn't retrieve the requested data. Please check your store connection and try again."
          "low").
Proof. intros H. unfold _fallback_explanation. rewrite H. reflexivity. Qed.

Lemma is_low_stock_record (item : py_value) :
  is_record item = true -> exists low, is_low_stock item = Ok low.
Proof.
  destruct item as [| | | | | | entries]; try discriminate.
  unfold is_record, is_low_stock, Py.get, Py.dict_get.
  destruct (Py.lookup "quantity" entries) as [quantity |]; cbn [result_bind].
  - destruct quantity; try discriminate; intros _; eexists; reflexivity.
  - intros _. eexists. reflexivity.
Qed.

Lemma is_low_stock_not_record (item : py_value) :
  is_record item = false -> exists e, is_low_stock item = Raise e.
Proof.
  destruct item as [| | | | | | entries];
    try (intros _; eexists; reflexivity).
  unfold is_record, is_low_stock, Py.get, Py.dict_get.
  destruct (Py.lookup "quantity" entries) as [quantity |]; cbn [result_bind].
  - destruct quantity; try discriminate; intros _; eexists; reflexivity.
  - discriminate.
Qed.

Lemma low_stock_records (items : list py_value) :
  forallb is_record items = true ->
  exists low_stock, result_filter is_low_stock items = Ok low_stock.
Proof.
  induction items as [| item items IH]; cbn [forallb result_filter].
  - intros _. eexists. reflexivity.
  - intros H. apply andb_true_iff in H. destruct H as [Hitem Hitems].
    destruct (is_low_stock_record _ Hitem) as [low Hlow].
    destruct (IH Hitems) as [rest Hrest].
    rewrite Hlow, Hrest. cbn [result_bind]. eexists. reflexivity.
Qed.

Lemma low_stock_not_records (items : list py_value) :
  forallb is_record items = false ->
  exists e, result_filter is_low_stock items = Raise e.
Proof.
  induction items as [| item items IH]; cbn [forallb result_filter].
  - discriminate.
  - intros H. destruct (is_record item) eqn:Hitem.
    + destruct (is_low_stock_record _ Hitem) as [low Hlow].
      destruct (IH H) as [e He].
      rewrite Hlow, He. cbn [result_bind]. eexists. reflexivity.
    + destruct (is_low_stock_not_record _ Hitem) as [e He].
      rewrite He. cbn [result_bind]. eexists. reflexivity.
Qed.

Lemma format_2f_formattable (v : py_value) :
  is_formattable v = true -> exists amount, Py.format_2f v = Ok amount.
Proof.
  destruct v as [| b | n | x | | |]; try discriminate; cbn [is_formattable Py.format_2f].
  - intros _. destruct b; eexists; reflexivity.
  - unfold Py.format_2f_int. intros ->. eexists. reflexivity.
  - intros _. eexists. reflexivity.
Qed.

Lemma format_2f_not_formattable (v : py_value) :
  is_formattable v = false -> exists e, Py.format_2f v = Raise e.
Proof.
  destruct v as [| b | n | x | | |]; try discriminate; cbn [is_formattable Py.format_2f];
    try (intros _; eexists; reflexivity).
  unfold Py.format_2f_int. intros ->. eexists. reflexivity.
Qed.


Lemma two_digits_below_100 :
  forallb two_digits_checked (map Z.of_nat (seq 0 100)) = true.
Proof. vm_compute. reflexivity. Qed.

Lemma two_digits_form (n : Z) :
  0 <= n < 100 ->
  exists d1 d2,
    Py.two_digits n = String d1 (String d2 EmptyString)
    /\ is_digit d1 = true /\ is_digit d2 = true.
Proof.
  intros H.
  assert (Hin : In n (map Z.of_nat (seq 0 100))).
  { rewrite <- (Z2Nat.id n) by lia. apply in_map, in_seq. lia. }
  pose proof (proj1 (forallb_forall _ _) two_digits_below_100 n Hin) as Hn.
  unfold two_digits_checked in Hn.
  destruct (Py.two_digits n) as [| d1 [| d2 [| ]]]; try discriminate.
  apply andb_true_iff in Hn. exists d1, d2. tauto.
Qed.

Lemma string_append_assoc (a b c : string) :
  ((a ++ b) ++ c)%string = (a ++ b ++ c)%string.
Proof. induction a as [| ch a IH]; cbn [append]; [reflexivity | now rewrite IH]. Qed.

Lemma fixed2_two_decimals (negative : bool) (hundredths : Z) :
  two_decimals (Py.fixed2 negative hundredths).
Proof.
  destruct (two_digits_form (hundredths mod 100)) as (d1 & d2 & E & H1 & H2).
  { apply Z.mod_pos_bound. lia. }
  exists ((if negative then "-" else "") ++ PyStr.of_Z (hundredths / 100))%string, d1, d2.
  unfold Py.fixed2. rewrite E, string_append_assoc. auto.
Qed.

Lemma format_2f_spec_two_decimals (x : spec_float) :
  Py.is_finite x = true -> two_decimals (Py.format_2f_spec x).
Proof.
  destruct x; try discriminate; intros _; apply fixed2_two_decimals.
Qed.

Lemma format_2f_finite_number (v : py_value) :
  is_finite_number v = true ->
  exists amount, Py.format_2f v = Ok amount /\ two_decimals amount.
Proof.
  destruct v as [| b | n | x | | |]; try discriminate;
    cbn [is_finite_number Py.format_2f].
  - intros _. destruct b; eexists; (split; [reflexivity |]);
      apply format_2f_spec_two_decimals; reflexivity.
  - unfold Py.format_2f_int. intros H. rewrite H. eexists. split; [reflexivity |].
    now apply format_2f_spec_two_decimals.
  - intros H. eexists. split; [reflexivity |].
    now apply format_2f_spec_two_decimals.
Qed.

(** C7 (as stated, refuted): with a total that is not a number, such as
    the text Shopify gives for an amount, the format specification raises
    and no answer is reported. *)
Lemma fallback_explanation_sales_text_total :
  Py.truthy (PDict [("total_sales", PStr "12500.50")]) = true
  /\ forall rt' question,
      _fallback_explanation rt' question
        (PDict [("total_sales", PStr "12500.50")]) (PStr "sales")
      = Raise (Exn ValueError "Unknown format code 'f' for object of type 'str'").
Proof. split; reflexivity. Qed.

(** C7 (amended): for the sales intent and a non-empty dictionary whose
    total (the field total_sales, else the field sales, else 0) is a
    finite number, the fallback explanation reports that total formatted
    with two decimals after a dollar sign, with the confidence medium. *)
Theorem fallback_explanation_sales (question : string)
        (entries : list (string * py_value)) :
  Py.truthy (PDict entries) = true ->
  is_finite_number (sales_total entries) = true ->
  exists amount,
    Py.format_2f (sales_total entries) = Ok amount
    /\ two_decimals amount
    /\ _fallback_explanation rt question (PDict entries) (PStr "sales")
       = Ok (explanation ("Total sales: $" ++ amount ++ " for the requested period.")
                         "medium").
Proof.
  intros Hdata Htotal.
  destruct (format_2f_finite_number _ Htotal) as (amount & Hamount & Hdecimals).
  exists amount. split; [exact Hamount | split; [exact Hdecimals |]].
  unfold _fallback_explanation. rewrite Hdata. cbn [negb Py.eq_str String.eqb].
  change (String.eqb "sales" "inventory") with false.
  change (String.eqb "sales" "products") with false.
  change (String.eqb "sales" "sales") with true.
  cbn iota. unfold Py.get. cbn [result_bind].
  fold (sales_total entries). rewrite Hamount. reflexivity.
Qed.

(** C9 (as stated, refuted): on a list with an item that is not a record
    the inventory explanation raises, so no confidence is returned. *)
Lemma fallback_explanation_raises :
  Py.truthy (PList [PInt 1]) = true
  /\ forall rt' question,
      _fallback_explanation rt' question (PList [PInt 1]) (PStr "inventory")
      = Raise (Exn AttributeError "'int' object has no attribute 'get'").
Proof. split; reflexivity. Qed.

(** C9 (amended): whatever the question, the data and the intent, the
    fallback explanation either returns an answer whose confidence is low
    or medium, never high, or raises; it raises exactly on the inputs that
    are not [explainable]: under the inventory intent, a non-empty list
    with an item that is not a record with a numeric or absent quantity;
    under the sales intent, data that is truthy and not a dictionary, or
    a dictionary whose total is not a number within the range of
    doubles. *)
Theorem fallback_explanation_confidence (question : string) (data query_type : py_value) :
  if explainable data query_type
  then exists text confidence,
         _fallback_explanation rt question data query_type
         = Ok (explanation text confidence)
         /\ (confidence = "low" \/ confidence = "medium")
  else exists e, _fallback_explanation rt question data query_type = Raise e.
Proof.
  unfold explainable, _fallback_explanation.
  destruct (Py.truthy data) eqn:Hdata; cbn [negb].
  2: { do 2 eexists. split; [reflexivity | now left]. }
  destruct (Py.eq_str query_type "inventory").
  { destruct data as [| | | | | items |];
      try (do 2 eexists; split; [reflexivity | now right]).
    destruct items as [| item items]; [discriminate |].
    change (0 <? Z.of_nat (List.length (item :: items))) with true. cbn iota.
    destruct (forallb is_record (item :: items)) eqn:Hitems.
    - destruct (low_stock_records _ Hitems) as [low_stock ->].
      cbn [result_bind]. do 2 eexists. split; [reflexivity | now right].
    - destruct (low_stock_not_records _ Hitems) as [e ->].
      cbn [result_bind]. eexists. reflexivity. }
  destruct (Py.eq_str query_type "products").
  { destruct data; do 2 eexists; (split; [reflexivity | now right]). }
  destruct (Py.eq_str query_type "sales").
  2: { do 2 eexists. split; [reflexivity | now right]. }
  destruct data as [| | | | | | entries]; try (eexists; reflexivity).
  unfold Py.get. cbn [result_bind]. fold (sales_total entries).
  destruct (is_formattable (sales_total entries)) eqn:Htotal.
  - destruct (format_2f_formattable _ Htotal) as [amount ->].
    cbn [result_bind]. do 2 eexists. split; [reflexivity | now right].
  - destruct (format_2f_not_formattable _ Htotal) as [e ->].
    cbn [result_bind]. eexists. reflexivity.
Qed.


Lemma result_filter_app {A : Type} (test : A -> result bool) (l1 l2 k1 k2 : list A) :
  result_filter test l1 = Ok k1 ->
  result_filter test l2 = Ok k2 ->
  result_filter test (l1 ++ l2) = Ok (k1 ++ k2).
Proof.
  revert k1. induction l1 as [| a l1 IH]; intros k1 H1 H2; cbn [result_filter app] in *.
  - injection H1 as <-. exact H2.
  - destruct (test a) as [keep | e]; cbn [result_bind] in *; [| discriminate].
    destruct (result_filter test l1) as [rest | e]; cbn [result_bind] in *; [| discriminate].
    injection H1 as <-. rewrite (IH rest eq_refl H2). cbn [result_bind].
    destruct keep; reflexivity.
Qed.

(** A record without a quantity passes the low-stock test, as one with
    the quantity 0 does. *)
Lemma is_low_stock_without_quantity (entries : list (string * py_value)) :
  Py.lookup "quantity" entries = None ->
  Py.get (PDict entries) "quantity" (PInt 0) = Ok (PInt 0)
  /\ is_low_stock (PDict entries) = Ok true.
Proof.
  intros H. unfold is_low_stock, Py.get, Py.dict_get. rewrite H. split; reflexivity.
Qed.

(** C10: in the inventory explanation of a non-empty list of records, a
    record without a quantity field is read as having the quantity 0 and
    is one of the low-inventory records the answer counts: the count is
    one more than without it. *)
Theorem fallback_explanation_counts_missing_quantity
        (question : string) (before after : list py_value)
        (entries : list (string * py_value)) :
  Py.lookup "quantity" entries = None ->
  forallb is_record (before ++ after) = true ->
  exists low_stock others,
    result_filter is_low_stock (before ++ PDict entries :: after) = Ok low_stock
    /\ result_filter is_low_stock (before ++ after) = Ok others
    /\ Py.get (PDict entries) "quantity" (PInt 0) = Ok (PInt 0)
    /\ In (PDict entries) low_stock
    /\ List.length low_stock = S (List.length others)
    /\ _fallback_explanation rt question (PList (before ++ PDict entries :: after))
         (PStr "inventory")
       = Ok (explanation
               ("Found " ++ count_text low_stock
                ++ " products with low inventory (less than 20 units). Consider reordering soon.")
               "medium").
Proof.
  intros Hmissing Hrecords.
  rewrite forallb_app in Hrecords. apply andb_true_iff in Hrecords.
  destruct Hrecords as [Hbefore Hafter].
  destruct (low_stock_records _ Hbefore) as [low_before Hlb].
  destruct (low_stock_records _ Hafter) as [low_after Hla].
  destruct (is_low_stock_without_quantity _ Hmissing) as [Hzero Hlow].
  assert (Hhere : result_filter is_low_stock (PDict entries :: after)
                  = Ok (PDict entries :: low_after)).
  { cbn [result_filter]. rewrite Hlow, Hla. reflexivity. }
  pose proof (result_filter_app _ _ _ _ _ Hlb Hhere) as Hall.
  exists (low_before ++ PDict entries :: low_after), (low_before ++ low_after).
  split; [exact Hall |].
  split; [now apply result_filter_app |].
  split; [exact Hzero |].
  split; [apply in_or_app; right; now left |].
  split; [rewrite !length_app; cbn [List.length]; lia |].
  unfold _fallback_explanation.
  assert (Htruthy : Py.truthy (PList (before ++ PDict entries :: after)) = true)
    by (destruct before; reflexivity).
  rewrite Htruthy. cbn [negb].
  change (Py.eq_str (PStr "inventory") "inventory") with true. cbn iota.
  assert (Hlen : (0 <? Z.of_nat (List.length (before ++ PDict entries :: after))) = true).
  { apply Z.ltb_lt. rewrite length_app. cbn [List.length]. lia. }
  rewrite Hlen, Hall. reflexivity.
Qed.

End FallbackExplanation.

Lemma fallback_explanation_no_data_witness :
  Py.truthy (PList []) = false
  /\ forall rt question,
      _fallback_explanation rt question (PList []) (PStr "inventory")
      = Ok (explanation
              "I couldn't retrieve the requested data. Please check your store connection and try again."
              "low").
Proof.
  split; [reflexivity |]. intros rt question.
  apply (fallback_explanation_no_data rt question (PList []) (PStr "inventory")).
  reflexivity.
Defined.

Lemma fallback_explanation_sales_witness :
  Py.truthy (PDict [("total_sales", PFloat 12500.50)]) = true
  /\ forall rt question,
      _fallback_explanation rt question (PDict [("total_sales", PFloat 12500.50)])
        (PStr "sales")
      = Ok (explanation "Total sales: $12500.50 for the requested period." "medium")
      /\ PyStr.contains "12500.50" "Total sales: $12500.50 for the requested period." = true.
Proof.
  split; [reflexivity |]. intros rt question. split; [| reflexivity].
  destruct (fallback_explanation_sales rt question
              [("total_sales", PFloat 12500.50)] eq_refl eq_refl)
    as (amount & Hamount & _ & Hanswer).
  vm_compute in Hamount. injection Hamount as <-. exact Hanswer.
Defined.

Lemma fallback_explanation_counts_missing_quantity_witness :
  Py.lookup "quantity" [("product_name", PStr "Product D")] = None
  /\ forall rt question,
      exists low_stock,
        In (PDict [("product_name", PStr "Product D")]) low_stock
        /\ List.length low_stock = 2%nat
        /\ _fallback_explanation rt question
             (PList [PDict [("product_name", PStr "Product B"); ("quantity", PInt 5)];
                     PDict [("product_name", PStr "Product D")];
                     PDict [("product_name", PStr "Product C"); ("quantity", PInt 45)]])
             (PStr "inventory")
           = Ok (explanation
                   ("Found " ++ count_text low_stock
                    ++ " products with low inventory (less than 20 units). Consider reordering soon.")
                   "medium").
Proof.
  split; [reflexivity |]. intros rt question.
  destruct (fallback_explanation_counts_missing_quantity rt question
              [PDict [("product_name", PStr "Product B"); ("quantity", PInt 5)]]
              [PDict [("product_name", PStr "Product C"); ("quantity", PInt 45)]]
              [("product_name", PStr "Product D")] eq_refl eq_refl)
    as (low_stock & others & _ & Hothers & _ & Hin & Hlen & Hanswer).
  exists low_stock. split; [exact Hin |]. split; [| exact Hanswer].
  vm_compute in Hothers. injection Hothers as <-. exact Hlen.
Defined.

(** ** The data fetcher *)

Lemma fetched_succeeded (data : py_value) : succeeded (fetched data).
Proof. eexists. repeat split. Qed.

Lemma mock_data_fetched (query_type query : py_value) :
  exists data, _get_mock_data query_type query = Return (fetched data).
Proof.
  unfold _get_mock_data.
  repeat match goal with
         | |- context [if ?b then _ else _] => destruct b
         end; eexists; reflexivity.
Qed.

(** The mock data of an intent does not depend on the query. *)
Lemma mock_data_any_query (query_type query query' : py_value) :
  _get_mock_data query_type query = _get_mock_data query_type query'.
Proof. reflexivity. Qed.

Lemma ensures_weaken {A : Type} (P Q : A -> Prop) (E F : exn -> Prop) (p : prog A) :
  (forall a, P a -> Q a) -> (forall e, E e -> F e) -> ensures P E p -> ensures Q F p.
Proof.
  intros HP HE. induction p as [a | e | req k IH | req k IH]; cbn [ensures]; auto.
Qed.

Lemma ensures_bind {A B : Type} (Q : A -> Prop) (P : B -> Prop) (E : exn -> Prop)
      (p : prog A) (f : A -> prog B) :
  ensures Q E p -> (forall a, Q a -> ensures P E (f a)) -> ensures P E (prog_bind p f).
Proof.
  intros Hp Hf. induction p as [a | e | req k IH | req k IH];
    cbn [ensures prog_bind] in *; auto.
Qed.

Lemma ensures_try_except {A : Type} (P : A -> Prop) (E F : exn -> Prop)
      (p : prog A) (handler : exn -> prog A) :
  ensures P F p -> (forall e, F e -> ensures P E (handler e)) ->
  ensures P E (try_except p handler).
Proof.
  intros Hp Hh. induction p as [a | e | req k IH | req k IH];
    cbn [ensures try_except] in *; auto.
Qed.

Lemma run_bind {A B : Type} chat http (p : prog A) (f : A -> prog B) :
  run chat http (prog_bind p f)
  = match run chat http p with
    | Ok a => run chat http (f a)
    | Raise e => Raise e
    end.
Proof.
  induction p as [a | e | req k IH | req k IH]; cbn [run prog_bind]; auto.
Qed.

Lemma run_try_except {A : Type} chat http (p : prog A) (handler : exn -> prog A) :
  run chat http (try_except p handler)
  = match run chat http p with
    | Ok a => Ok a
    | Raise e => run chat http (handler e)
    end.
Proof.
  induction p as [a | e | req k IH | req k IH]; cbn [run try_except]; auto.
Qed.

Section Fetcher.
Variable rt : py_runtime.
Variable env : environment.
Variable self : ShopifyClient.

(** What the [try] block of a live method returns is a success. *)
Ltac attempt_steps :=
  repeat match goal with
         | H : Ok _ = Ok _ |- _ => injection H as <-
         | H : Raise _ = Ok _ |- _ => discriminate H
         | H : Ok None = Ok (Some _) |- _ => discriminate H
         | H : (if ?b then _ else _) = Ok _ |- _ => destruct b
         | H : result_bind ?r _ = Ok _ |- _ =>
             destruct r; cbn [result_bind] in H
         end.

Lemma inventory_attempt_succeeded outcome fetch_result :
  inventory_attempt outcome = Ok (Some fetch_result) -> succeeded fetch_result.
Proof.
  unfold inventory_attempt. destruct outcome as [e | status_code json]; intros H;
    attempt_steps; apply fetched_succeeded.
Qed.

Lemma products_attempt_succeeded limit outcome fetch_result :
  products_attempt limit outcome = Ok (Some fetch_result) -> succeeded fetch_result.
Proof.
  unfold products_attempt. destruct outcome as [e | status_code json]; intros H;
    attempt_steps; apply fetched_succeeded.
Qed.

Lemma orders_attempt_succeeded outcome fetch_result :
  orders_attempt rt outcome = Ok (Some fetch_result) -> succeeded fetch_result.
Proof.
  unfold orders_attempt. destruct outcome as [e | status_code json]; intros H;
    attempt_steps; apply fetched_succeeded.
Qed.

Lemma customers_attempt_succeeded outcome fetch_result :
  customers_attempt outcome = Ok (Some fetch_result) -> succeeded fetch_result.
Proof.
  unfold customers_attempt. destruct outcome as [e | status_code json]; intros H;
    attempt_steps; apply fetched_succeeded.
Qed.

Lemma or_mock_succeeded attempt query_type query :
  (forall fetch_result, attempt = Ok (Some fetch_result) -> succeeded fetch_result) ->
  exists fetch_result,
    or_mock attempt (_get_mock_data query_type query) = Return fetch_result
    /\ succeeded fetch_result.
Proof.
  intros H. destruct (mock_data_fetched query_type query) as [data Hmock].
  destruct attempt as [[fetch_result |] | e]; cbn [or_mock].
  - eexists. split; [reflexivity | now apply H].
  - rewrite Hmock. eexists. split; [reflexivity | apply fetched_succeeded].
  - rewrite Hmock. eexists. split; [reflexivity | apply fetched_succeeded].
Qed.

(** A failed request leaves no result in the [try] block. *)
Ltac failed_steps :=
  match goal with
  | H : request_failed ?o |- _ =>
      destruct o as [e | status_code json]; [reflexivity |];
      cbn [request_failed] in H;
      destruct H as [H | [e H]];
      [ apply Z.eqb_neq in H; rewrite H; reflexivity
      | rewrite H; destruct (status_code =? 200); reflexivity ]
  end.

Lemma inventory_attempt_failed outcome mock :
  request_failed outcome -> or_mock (inventory_attempt outcome) mock = mock.
Proof. intros H. unfold inventory_attempt. failed_steps. Qed.

Lemma products_attempt_failed limit outcome mock :
  request_failed outcome -> or_mock (products_attempt limit outcome) mock = mock.
Proof. intros H. unfold products_attempt. failed_steps. Qed.

Lemma orders_attempt_failed outcome mock :
  request_failed outcome -> or_mock (orders_attempt rt outcome) mock = mock.
Proof. intros H. unfold orders_attempt. failed_steps. Qed.

Lemma customers_attempt_failed outcome mock :
  request_failed outcome -> or_mock (customers_attempt outcome) mock = mock.
Proof. intros H. unfold customers_attempt. failed_steps. Qed.


(** Each live method makes one request and then returns a success: what
    the request gave, or the mock data of its intent. *)
Lemma live_method_succeeded req attempt query_type query :
  (forall outcome fetch_result,
      attempt outcome = Ok (Some fetch_result) -> succeeded fetch_result) ->
  always_returns succeeded
    (Get req (fun outcome => or_mock (attempt outcome) (_get_mock_data query_type query))).
Proof.
  intros H outcome.
  destruct (or_mock_succeeded (attempt outcome) query_type query (H outcome))
    as (fetch_result & -> & Hok).
  exact Hok.
Qed.

Lemma live_method_one_request req attempt query_type query :
  at_most_one_request
    (Get req (fun outcome => or_mock (attempt outcome) (_get_mock_data query_type query))).
Proof.
  intros outcome.
  destruct (mock_data_fetched query_type query) as [data Hmock].
  destruct (attempt outcome) as [[fetch_result |] | e]; cbn [or_mock];
    rewrite ?Hmock; exact I.
Qed.

(** Whatever the query and the intent are, [execute_query] returns a
    success or raises; it raises only in [_get_products_data], on a query
    that is not a string. *)
Lemma execute_query_ensures (store_id : string) (query query_type : py_value) :
  ensures succeeded (fun _ => True) (execute_query rt env self store_id query query_type).
Proof.
  assert (Hmock : forall qt q, ensures succeeded (fun _ : exn => True) (_get_mock_data qt q)).
  { intros qt q. destruct (mock_data_fetched qt q) as [data ->]. apply fetched_succeeded. }
  assert (Hlive : forall p, always_returns succeeded p ->
                            ensures succeeded (fun _ : exn => True) p).
  { intros p. apply ensures_weaken; [auto | contradiction]. }
  unfold execute_query.
  destruct (negb _); [apply Hmock |].
  destruct (Py.eq_str query_type "inventory").
  { apply Hlive, live_method_succeeded, inventory_attempt_succeeded. }
  destruct (Py.eq_str query_type "products").
  { unfold _get_products_data. destruct query; try exact I.
    apply Hlive, live_method_succeeded. intros outcome fetch_result.
    apply products_attempt_succeeded. }
  destruct (Py.eq_str query_type "sales").
  { apply Hlive, live_method_succeeded, orders_attempt_succeeded. }
  destruct (Py.eq_str query_type "customers").
  { apply Hlive, live_method_succeeded, customers_attempt_succeeded. }
  apply Hmock.
Qed.

(** C3: for a store with no access token in the environment (the
    variable is unset or empty) and for every intent, [execute_query]
    makes no call and returns the mock data of the intent as a success;
    the mock sales data has total_sales 12500.50, order_count 45 and
    average_order_value 277.79, and the mock inventory data has three
    records, of which the one named Product B has the quantity 5. *)
Theorem execute_query_without_token (store_id : string) (query query_type : py_value) :
  getenv env (access_token_variable (_normalize_shop store_id)) "" = "" ->
  execute_query rt env self store_id query query_type = _get_mock_data query_type query
  /\ no_call (execute_query rt env self store_id query query_type)
  /\ (exists data,
        execute_query rt env self store_id query query_type = Return (fetched data)
        /\ succeeded (fetched data))
  /\ (query_type = PStr "sales" ->
      execute_query rt env self store_id query query_type
      = Return (fetched (PDict [("total_sales", PFloat 12500.50);
                                ("order_count", PInt 45);
                                ("average_order_value", PFloat 277.79);
                                ("period", PStr "last 30 days")])))
  /\ (query_type = PStr "inventory" ->
      exists a b c,
        execute_query rt env self store_id query query_type
        = Return (fetched (PList [a; b; c]))
        /\ Py.get a "product_name" PNone = Ok (PStr "Product A")
        /\ Py.get b "product_name" PNone = Ok (PStr "Product B")
        /\ Py.get c "product_name" PNone = Ok (PStr "Product C")
        /\ Py.get b "quantity" PNone = Ok (PInt 5)).
Proof.
  intros Htoken.
  assert (E : execute_query rt env self store_id query query_type
              = _get_mock_data query_type query).
  { unfold execute_query. rewrite Htoken. reflexivity. }
  rewrite E. split; [reflexivity |].
  destruct (mock_data_fetched query_type query) as [data Hmock].
  split; [rewrite Hmock; exact I |].
  split; [exists data; split; [exact Hmock | apply fetched_succeeded] |].
  split; intros ->.
  - reflexivity.
  - do 3 eexists. repeat split.
Qed.

(** For every store, every query text and each of the four intents,
    [execute_query] makes at most one Shopify request and returns a
    success on every outcome of it; a failed request gives the mock data
    of the intent. *)
Lemma execute_query_live (store_id query intent : string) :
  In intent ["sales"; "inventory"; "customers"; "products"] ->
  always_returns succeeded
    (execute_query rt env self store_id (PStr query) (PStr intent))
  /\ at_most_one_request
       (execute_query rt env self store_id (PStr query) (PStr intent))
  /\ (execute_query rt env self store_id (PStr query) (PStr intent)
      = _get_mock_data (PStr intent) (PStr query)
      \/ exists req k,
          execute_query rt env self store_id (PStr query) (PStr intent) = Get req k
          /\ forall outcome,
              request_failed outcome ->
              k outcome = _get_mock_data (PStr intent) (PStr query)).
Proof.
  intros Hintent.
  assert (Hmock : always_returns succeeded (_get_mock_data (PStr intent) (PStr query))
                  /\ at_most_one_request (_get_mock_data (PStr intent) (PStr query))).
  { destruct (mock_data_fetched (PStr intent) (PStr query)) as [data ->].
    split; [apply fetched_succeeded | exact I]. }
  split; [| split].
  all: unfold execute_query; destruct (negb _); [first [apply Hmock | now left] |].
  all: cbn [In] in Hintent;
    destruct Hintent as [<- | [<- | [<- | [<- | []]]]];
    cbn [Py.eq_str];
    repeat match goal with
           | |- context [String.eqb ?a ?b] =>
               let v := eval vm_compute in (String.eqb a b) in
               change (String.eqb a b) with v
           end; cbn iota.
  all: try (apply live_method_succeeded;
            first [ apply inventory_attempt_succeeded
                  | apply orders_attempt_succeeded
                  | apply customers_attempt_succeeded
                  | intros outcome fetch_result; apply products_attempt_succeeded ]).
  all: try apply live_method_one_request.
  all: right; do 2 eexists; (split; [reflexivity |]); intros outcome Hfailed.
  - now apply orders_attempt_failed.
  - now apply inventory_attempt_failed.
  - now apply customers_attempt_failed.
  - now apply products_attempt_failed.
Qed.

End Fetcher.

(** *** The live methods on concrete responses *)

Example execute_query_inventory_request (rt : py_runtime) :
  exists k,
    execute_query rt env_with_token ShopifyClient__init__ "my-shop"
                  (PStr "SHOW inventory_levels FROM products") (PStr "inventory")
    = Get {| url := "https://my-shop.myshopify.com/admin/api/2024-01/inventory_levels.json";
             headers := [("X-Shopify-Access-Token", "shpat_example")];
             timeout := 10.0 |} k.
Proof. eexists. reflexivity. Qed.

Example execute_query_inventory_200 (rt : py_runtime) :
  run (fun _ => Ok PNone)
      (fun _ => HttpResponse 200
                  (Ok (PDict [("inventory_levels",
                               PList [PDict [("inventory_item_id", PInt 7);
                                             ("available", PInt 3)]])])))
      (execute_query rt env_with_token ShopifyClient__init__ "my-shop"
                     (PStr "SHOW inventory_levels FROM products") (PStr "inventory"))
  = Ok (fetched (PList [PDict [("inventory_item_id", PInt 7); ("available", PInt 3)]])).
Proof. reflexivity. Qed.

Example execute_query_inventory_404 (rt : py_runtime) :
  run (fun _ => Ok PNone)
      (fun _ => HttpResponse 404 (Ok (PDict [("errors", PStr "Not Found")])))
      (execute_query rt env_with_token ShopifyClient__init__ "my-shop"
                     (PStr "SHOW inventory_levels FROM products") (PStr "inventory"))
  = run (fun _ => Ok PNone) (fun _ => HttpRaised (Exn (OtherError "ConnectError") ""))
        (_get_mock_data (PStr "inventory") (PStr "")).
Proof. reflexivity. Qed.

Example execute_query_customers_200 (rt : py_runtime) :
  run (fun _ => Ok PNone)
      (fun _ => HttpResponse 200
                  (Ok (PDict [("customers",
                               PList (map PInt [1; 2; 3; 4; 5; 6; 7; 8; 9; 10; 11; 12]))])))
      (execute_query rt env_with_token ShopifyClient__init__ "my-shop"
                     (PStr "SHOW customer_count FROM customers") (PStr "customers"))
  = Ok (fetched (PDict [("customer_count", PInt 12);
                        ("customers", PList (map PInt [1; 2; 3; 4; 5; 6; 7; 8; 9; 10]))])).
Proof. reflexivity. Qed.

Example execute_query_orders_not_a_list (rt : py_runtime) :
  run (fun _ => Ok PNone)
      (fun _ => HttpResponse 200 (Ok (PDict [("orders", PInt 3)])))
      (execute_query rt env_with_token ShopifyClient__init__ "my-shop"
                     (PStr "SHOW total_sales FROM orders") (PStr "sales"))
  = Ok (fetched (PDict [("total_sales", PFloat 12500.50);
                        ("order_count", PInt 45);
                        ("average_order_value", PFloat 277.79);
                        ("period", PStr "last 30 days")])).
Proof. reflexivity. Qed.

Example execute_query_products_query_not_text (rt : py_runtime) :
  run (fun _ => Ok PNone) (fun _ => HttpResponse 200 (Ok (PDict [])))
      (execute_query rt env_with_token ShopifyClient__init__ "my-shop"
                     PNone (PStr "products"))
  = Raise (Exn AttributeError "'NoneType' object has no attribute 'upper'").
Proof. reflexivity. Qed.

(** ** The pipeline *)

Lemma fallback_query_generation_shape (question : string) :
  exists intent query, _fallback_query_generation question = query_for intent query.
Proof.
  unfold _fallback_query_generation.
  repeat match goal with
         | |- context [if ?b then _ else _] => destruct b
         end; do 2 eexists; reflexivity.
Qed.

Lemma not_query_failure_one_entry (key : string) (v : py_value) :
  ~ is_query_failure (PDict [(key, v)]).
Proof. intros (message & query & H). discriminate H. Qed.

Section Pipeline.
Variable rt : py_runtime.
Variable env : environment.
Variable self : AIAgent.

Lemma query_of_completion_shape outcome query_result :
  query_of_completion outcome = Ok query_result -> query_result_shape query_result.
Proof.
  unfold query_of_completion. destruct outcome as [result | e]; [| discriminate].
  cbn [result_bind]. destruct result as [| | | | | | entries]; try discriminate.
  cbn [Py.get result_bind]. destruct (Py.truthy _).
  - destruct (Py.getitem _ _) as [error | e]; [| discriminate].
    cbn [result_bind]. intros H. injection H as <-. left. eexists. reflexivity.
  - intros H. injection H as <-. right. eexists. split; reflexivity.
Qed.

Lemma generate_query_ensures (question store_id : string) :
  always_returns query_result_shape (_generate_shopifyql_query self question store_id).
Proof.
  intros outcome. destruct (query_of_completion outcome) as [query_result | e] eqn:H.
  - now apply query_of_completion_shape in H.
  - destruct (fallback_query_generation_shape question) as (intent & query & ->).
    right. eexists. split; reflexivity.
Qed.

Lemma fallback_explanation_dict question data query_type answer :
  _fallback_explanation rt question data query_type = Ok answer -> is_dict answer.
Proof.
  unfold _fallback_explanation.
  repeat match goal with
         | |- context [if ?b then _ else _] => destruct b
         | |- context [match ?d with PNone => _ | _ => _ end] => destruct d
         | |- context [result_bind ?r _] => destruct r; cbn [result_bind]
         end;
    intros H; try discriminate H; injection H as <-; eexists; reflexivity.
Qed.

Lemma generate_explanation_ensures question data query_type :
  ensures is_dict (fun _ => True) (_generate_explanation rt self question data query_type).
Proof.
  intros outcome. destruct (explanation_of_completion outcome) as [answer | e] eqn:H.
  - unfold explanation_of_completion in H.
    destruct outcome as [result | e]; [| discriminate].
    cbn [result_bind] in H.
    repeat match type of H with
           | result_bind ?r _ = _ => destruct r; cbn [result_bind] in H; [| discriminate]
           end.
    injection H as <-. eexists. reflexivity.
  - destruct (_fallback_explanation rt question data query_type) as [answer | e'] eqn:H';
      cbn [call ensures]; [| exact I].
    now apply fallback_explanation_dict in H'.
Qed.

(** The body of [process_question] returns the error of the model, or an
    answer; it never reports a failed query. *)
Lemma pipeline_ensures (question store_id : string) :
  ensures (fun response => ~ is_query_failure response) (fun _ => True)
          (pipeline rt env self question store_id).
Proof.
  unfold pipeline.
  apply ensures_bind with (Q := query_result_shape).
  { eapply ensures_weaken; [| | apply generate_query_ensures]; [auto | contradiction]. }
  intros query_result Hshape.
  assert (Hdict : is_dict query_result).
  { destruct Hshape as [[error ->] | (entries & -> & _)]; eexists; reflexivity. }
  destruct Hdict as [entries ->].
  cbn [call Py.get prog_bind].
  destruct (Py.truthy (Py.dict_get entries "error" PNone)) eqn:Htruthy.
  { destruct Hshape as [[error H] | (entries' & H & Herror)]; injection H as ->.
    - apply not_query_failure_one_entry.
    - unfold Py.dict_get in Htruthy. rewrite Herror in Htruthy. discriminate. }
  apply ensures_bind with (Q := succeeded); [apply execute_query_ensures |].
  intros data_result (fetched_entries & -> & _ & Herror).
  cbn [call Py.get prog_bind]. unfold Py.dict_get at 1. rewrite Herror.
  cbn [Py.truthy prog_bind].
  apply ensures_bind with (Q := is_dict); [apply generate_explanation_ensures |].
  intros answer [answer_entries ->].
  cbn [call Py.get prog_bind ensures].
  intros (message & query & H). discriminate H.
Qed.

(** C2: for every store, every query text and each of the four intents,
    [execute_query] makes at most one Shopify request, and on every
    outcome of it returns a result with success true and no error field;
    when the request fails (it raises, the status is not 200, or the body
    is not JSON) the result is the mock data of the intent.  Hence, on
    every run, [process_question] returns and never with the dictionary
    of its failed-query branch. *)
Theorem execute_query_degrades (store_id query intent : string) :
  In intent ["sales"; "inventory"; "customers"; "products"] ->
  always_returns succeeded
    (execute_query rt env (shopify_client self) store_id (PStr query) (PStr intent))
  /\ at_most_one_request
       (execute_query rt env (shopify_client self) store_id (PStr query) (PStr intent))
  /\ (execute_query rt env (shopify_client self) store_id (PStr query) (PStr intent)
      = _get_mock_data (PStr intent) (PStr query)
      \/ exists req k,
          execute_query rt env (shopify_client self) store_id (PStr query) (PStr intent)
          = Get req k
          /\ forall outcome,
              request_failed outcome ->
              k outcome = _get_mock_data (PStr intent) (PStr query))
  /\ (forall question,
        always_returns (fun response => ~ is_query_failure response)
                       (process_question rt env self question store_id)).
Proof.
  intros Hintent.
  destruct (execute_query_live rt env (shopify_client self) store_id query _ Hintent)
    as (Hreturns & Hone & Hfailed).
  repeat split; try assumption.
  intros question. unfold process_question, always_returns.
  eapply ensures_try_except; [apply pipeline_ensures |].
  intros e _. cbn [ensures]. apply not_query_failure_one_entry.
Qed.

End Pipeline.

(** ** The end-to-end scenario *)

Section Scenario.
Variable rt : py_runtime.
Variable env : environment.
Variable chat : chat_request -> result py_value.
Variable http : http_request -> http_outcome.

(** The chat completion fails, whatever it is asked. *)
Hypothesis chat_fails : forall req, exists e, chat req = Raise e.

Lemma run_generate_query_fallback self question store_id :
  run chat http (_generate_shopifyql_query self question store_id)
  = Ok (_fallback_query_generation question).
Proof.
  unfold _generate_shopifyql_query. cbn [run].
  destruct (chat_fails (completion self query_system_prompt (query_user_prompt question) 0.3))
    as [e ->].
  reflexivity.
Qed.

Lemma run_generate_explanation_fallback self question data query_type :
  run chat http (_generate_explanation rt self question data query_type)
  = _fallback_explanation rt question data query_type.
Proof.
  unfold _generate_explanation. cbn [run].
  destruct (chat_fails (completion self explanation_system_prompt
                                  (explanation_user_prompt rt question data query_type) 0.5))
    as [e ->].
  cbn [explanation_of_completion result_bind].
  destruct (_fallback_explanation rt question data query_type); reflexivity.
Qed.

(** C1: for the store my-shop and the question about the top 5 selling
    products, when the chat completion fails and the store has no access
    token, [process_question] returns no error: the classifier fallback
    gives the intent products and a query with LIMIT 5, the data is the
    mock products data of three items, and the answer starts with
    Found 3 top-selling products, with the confidence medium. *)
Theorem process_question_top_products :
  getenv env (access_token_variable (_normalize_shop "my-shop")) "" = "" ->
  _fallback_query_generation top_products_question
  = query_for "products" top_products_query
  /\ PyStr.contains "LIMIT 5" top_products_query = true
  /\ exists answer,
      run chat http
          (process_question rt env (AIAgent__init__ env) top_products_question "my-shop")
      = Ok (PDict [("answer", PStr answer);
                   ("confidence", PStr "medium");
                   ("query_used", PStr top_products_query);
                   ("data", mock_products)])
      /\ prefix "Found 3 top-selling products" answer = true.
Proof.
  intros Htoken. split; [reflexivity | split; [reflexivity |]].
  exists "Found 3 top-selling products. Review the list to identify your best performers.".
  split; [| reflexivity].
  unfold process_question. rewrite run_try_except.
  unfold pipeline. rewrite run_bind, run_generate_query_fallback.
  replace (_fallback_query_generation top_products_question)
    with (query_for "products" top_products_query) by reflexivity.
  cbn [query_for call Py.get prog_bind].
  change (Py.dict_get _ "error" PNone) with PNone.
  cbn [Py.truthy].
  change (Py.dict_get _ "query" PNone) with (PStr top_products_query).
  change (Py.dict_get _ "intent" PNone) with (PStr "products").
  rewrite run_bind.
  unfold execute_query at 1. rewrite Htoken.
  cbn [Py.truthy String.eqb negb].
  change (_get_mock_data (PStr "products") (PStr top_products_query))
    with (Return (fetched mock_products)).
  cbn [run fetched call Py.get prog_bind].
  change (Py.dict_get _ "error" PNone) with PNone.
  cbn [Py.truthy].
  change (Py.dict_get _ "data" (PDict [])) with mock_products.
  cbn [prog_bind].
  rewrite run_bind, run_generate_explanation_fallback.
  reflexivity.
Qed.

End Scenario.

Lemma process_question_top_products_witness :
  getenv (fun _ => None) (access_token_variable (_normalize_shop "my-shop")) "" = ""
  /\ forall rt http,
      exists answer,
        run (fun _ => Raise (Exn (OtherError "AuthenticationError") "Incorrect API key provided"))
            http
            (process_question rt (fun _ => None) (AIAgent__init__ (fun _ => None))
                              top_products_question "my-shop")
        = Ok (PDict [("answer", PStr answer);
                     ("confidence", PStr "medium");
                     ("query_used", PStr top_products_query);
                     ("data", mock_products)])
        /\ prefix "Found 3 top-selling products" answer = true.
Proof.
  split; [reflexivity |]. intros rt http.
  refine (proj2 (proj2 (process_question_top_products rt (fun _ => None) _ http _ eq_refl))).
  intros req. eexists. reflexivity.
Defined.

Lemma execute_query_without_token_witness :
  getenv (fun _ => None) (access_token_variable (_normalize_shop "my-shop")) "" = ""
  /\ forall rt self query,
      execute_query rt (fun _ => None) self "my-shop" query (PStr "sales")
      = Return (fetched (PDict [("total_sales", PFloat 12500.50);
                                ("order_count", PInt 45);
                                ("average_order_value", PFloat 277.79);
                                ("period", PStr "last 30 days")])).
Proof.
  split; [reflexivity |]. intros rt self query.
  apply (execute_query_without_token rt (fun _ => None) self "my-shop" query
                                     (PStr "sales") eq_refl).
  reflexivity.
Defined.

Lemma execute_query_degrades_witness :
  In "inventory" ["sales"; "inventory"; "customers"; "products"]
  /\ forall rt query,
      run (fun _ => Ok PNone) (fun _ => HttpResponse 503 (Ok (PDict [])))
          (execute_query rt env_with_token ShopifyClient__init__ "my-shop"
                         (PStr query) (PStr "inventory"))
      = run (fun _ => Ok PNone) (fun _ => HttpResponse 503 (Ok (PDict [])))
            (_get_mock_data (PStr "inventory") (PStr query)).
Proof.
  split; [cbn [In]; auto |]. intros rt query.
  destruct (execute_query_degrades rt env_with_token (AIAgent__init__ env_with_token)
              "my-shop" query "inventory") as (_ & _ & [E | (req & k & E & Hfailed)] & _).
  - cbn [In]. auto.
  - cbn [AIAgent__init__ shopify_client] in E. rewrite E. reflexivity.
  - cbn [AIAgent__init__ shopify_client] in E. rewrite E. cbn [run].
    rewrite Hfailed; [reflexivity |]. left. discriminate.
Defined.

(** *** Other runs of the pipeline *)

Example process_question_model_error (rt : py_runtime) (http : http_request -> http_outcome) :
  run (fun _ => Ok (PDict [("error", PStr "The question is ambiguous.")])) http
      (process_question rt (fun _ => None) (AIAgent__init__ (fun _ => None))
                        "hello" "my-shop")
  = Ok (PDict [("error", PStr "The question is ambiguous.")]).
Proof. reflexivity. Qed.

Example process_question_agent_error (rt : py_runtime) (http : http_request -> http_outcome) :
  run (fun _ => Ok (PDict [("intent", PStr "products"); ("query", PNone)])) http
      (process_question rt env_with_token (AIAgent__init__ env_with_token)
                        "best sellers" "my-shop")
  = Ok (PDict [("error",
                PStr "Agent processing error: 'NoneType' object has no attribute 'upper'")]).
Proof. reflexivity. Qed.

Example process_question_sales_fallback (rt : py_runtime) (http : http_request -> http_outcome) :
  run (fun _ => Raise (Exn (OtherError "APIConnectionError") "Connection error.")) http
      (process_question rt (fun _ => None) (AIAgent__init__ (fun _ => None))
                        "What was my revenue?" "my-shop")
  = Ok (PDict [("answer", PStr "Total sales: $12500.50 for the requested period.");
               ("confidence", PStr "medium");
               ("query_used", PStr "SHOW total_sales FROM orders SINCE -30d");
               ("data", PDict [("total_sales", PFloat 12500.50);
                               ("order_count", PInt 45);
                               ("average_order_value", PFloat 277.79);
                               ("period", PStr "last 30 days")])]).
Proof. reflexivity. Qed.

(** * Further properties of the code *)

(** ** The fallback classifier *)

Lemma fallback_query_in_queries (question : string) :
  In (_fallback_query_generation question) fallback_queries.
Proof.
  unfold _fallback_query_generation.
  repeat match goal with
         | |- context [if ?b then _ else _] => destruct b
         end; cbv [fallback_queries In]; auto 10.
Qed.

(** X1: whatever the question, the fallback classifier returns one of its
    five fixed queries, with one of the four intents and no error. *)
Theorem fallback_query_generation_range (question : string) :
  In (_fallback_query_generation question) fallback_queries
  /\ exists intent query,
      _fallback_query_generation question = query_for intent query
      /\ In intent ["inventory"; "products"; "customers"; "sales"]
      /\ Py.get (_fallback_query_generation question) "error" PNone = Ok PNone.
Proof.
  unfold _fallback_query_generation.
  repeat match goal with
         | |- context [if ?b then _ else _] => destruct b
         end;
    (split;
     [ cbv [fallback_queries In]; auto 10
     | do 2 eexists; split; [reflexivity | split; [cbv [In]; auto 10 | reflexivity]] ]).
Qed.

(** X2: the words sales and revenue do not change the classification: a
    question without inventory, stock, customer and repeat, and without
    top and product together, gets the 30-day total sales query, whether
    it names sales or revenue or not (as the empty question does). *)
Theorem fallback_query_generation_default (question : string) :
  PyStr.contains "inventory" (PyStr.lower question) = false ->
  PyStr.contains "stock" (PyStr.lower question) = false ->
  (PyStr.contains "top" (PyStr.lower question)
   && PyStr.contains "product" (PyStr.lower question))%bool = false ->
  PyStr.contains "customer" (PyStr.lower question) = false ->
  PyStr.contains "repeat" (PyStr.lower question) = false ->
  _fallback_query_generation question
  = query_for "sales" "SHOW total_sales FROM orders SINCE -30d".
Proof.
  intros Hinventory Hstock Htop Hcustomer Hrepeat.
  unfold _fallback_query_generation.
  rewrite Hinventory, Hstock, Htop, Hcustomer, Hrepeat. cbn [orb].
  destruct (PyStr.contains "sales" (PyStr.lower question)
            || PyStr.contains "revenue" (PyStr.lower question))%bool; reflexivity.
Qed.

Lemma fallback_query_generation_default_witness :
  (PyStr.contains "inventory" (PyStr.lower "") = false
   /\ _fallback_query_generation ""
      = query_for "sales" "SHOW total_sales FROM orders SINCE -30d")
  /\ (PyStr.contains "customer" (PyStr.lower "Top of the morning, any news?") = false
      /\ _fallback_query_generation "Top of the morning, any news?"
         = query_for "sales" "SHOW total_sales FROM orders SINCE -30d").
Proof.
  split; (split; [reflexivity |]).
  - apply (fallback_query_generation_default ""); reflexivity.
  - apply (fallback_query_generation_default "Top of the morning, any news?");
      reflexivity.
Defined.

(** ** Store identifier normalization *)

Lemma prefix_append (s t : string) : prefix s (s ++ t) = true.
Proof.
  induction s as [| c s IH]; cbn [append prefix]; [destruct t; reflexivity |].
  destruct (ascii_dec c c); [exact IH | contradiction].
Qed.

Lemma contains_append (sub a b : string) :
  PyStr.contains sub (a ++ sub ++ b) = true.
Proof.
  induction a as [| c a IH].
  - cbn [append]. destruct (sub ++ b)%string eqn:E.
    + cbn [PyStr.contains]. rewrite <- E, prefix_append. reflexivity.
    + cbn [PyStr.contains]. rewrite <- E, prefix_append. reflexivity.
  - cbn [append PyStr.contains]. rewrite IH. apply orb_true_r.
Qed.

(** A one-character pattern is a prefix according to the first
    character alone. *)
Lemma prefix_one_char (d c : ascii) (s t : string) :
  prefix (String d EmptyString) (String c s) = prefix (String d EmptyString) (String c t).
Proof. cbn [prefix]. destruct (ascii_dec d c); destruct s, t; reflexivity. Qed.

(** The first piece of a split at a one-character separator is the text
    before the first separator. *)
Lemma split_first_piece (d : ascii) (a b : string) :
  PyStr.contains (String d EmptyString) a = false ->
  hd EmptyString (PyStr.split (a ++ String d b) (String d EmptyString)) = a.
Proof.
  unfold PyStr.split. induction a as [| c a IH]; intros H.
  - cbn [append PyStr.split_from prefix]. destruct (ascii_dec d d); [| contradiction].
    destruct b; reflexivity.
  - apply contains_tail in H. destruct H as [Hc Ha].
    cbn [append PyStr.split_from].
    rewrite (prefix_one_char d c (a ++ String d b) a), Hc.
    specialize (IH Ha).
    destruct (PyStr.split_from (String d EmptyString) 0 (a ++ String d b)) as [| piece pieces];
      cbn [hd] in *; now rewrite <- IH.
Qed.

(** X3: a store identifier with a dot that is not a store domain is cut
    at its first dot: when the text before the first dot is [label], the
    identifier holds no scheme text and does not end with
    [.myshopify.com], the normalized shop is [label.myshopify.com],
    whatever follows the dot. *)
Theorem normalize_shop_first_label (label rest : string) :
  PyStr.contains "." label = false ->
  PyStr.contains "https://" (label ++ "." ++ rest) = false ->
  PyStr.contains "http://" (label ++ "." ++ rest) = false ->
  PyStr.endswith (label ++ "." ++ rest) ".myshopify.com" = false ->
  _normalize_shop (label ++ "." ++ rest) = (label ++ ".myshopify.com")%string.
Proof.
  intros Hlabel Hhttps Hhttp Hsuffix. unfold _normalize_shop.
  rewrite (replace_absent _ _ "" Hhttps), (replace_absent _ _ "" Hhttp), Hsuffix.
  cbn [negb]. rewrite (contains_append "." label rest).
  change (label ++ "." ++ rest)%string with (label ++ String "." rest)%string.
  now rewrite (split_first_piece "." label rest Hlabel).
Qed.

Lemma normalize_shop_first_label_witness :
  PyStr.contains "." "my-shop" = false
  /\ _normalize_shop ("my-shop" ++ "." ++ "example.com") = "my-shop.myshopify.com"
  /\ _normalize_shop ("my-shop" ++ "." ++ "other-host.org/path")
     = "my-shop.myshopify.com".
Proof.
  split; [reflexivity |]. split.
  - apply (normalize_shop_first_label "my-shop" "example.com"); reflexivity.
  - apply (normalize_shop_first_label "my-shop" "other-host.org/path"); reflexivity.
Defined.

(** ** The live methods of the Shopify client *)

Lemma result_map_raises {A B : Type} (f : A -> result B) (l : list A) (a : A) (e : exn) :
  In a l -> f a = Raise e -> exists e', result_map f l = Raise e'.
Proof.
  induction l as [| b l IH]; intros Hin Ha; [contradiction |].
  cbn [result_map]. destruct Hin as [-> | Hin].
  - rewrite Ha. eexists. reflexivity.
  - destruct (f b); cbn [result_bind]; [| eexists; reflexivity].
    destruct (IH Hin Ha) as [e' ->]. eexists. reflexivity.
Qed.

Lemma low_stock_without_quantity (items : list py_value) :
  forallb lacks_quantity items = true -> result_filter is_low_stock items = Ok items.
Proof.
  induction items as [| item items IH]; cbn [forallb result_filter]; [reflexivity |].
  intros H. apply andb_true_iff in H. destruct H as [Hitem Hitems].
  destruct item as [| | | | | | entries]; try discriminate.
  cbn [lacks_quantity] in Hitem.
  destruct (Py.lookup "quantity" entries) eqn:Hq; [discriminate |].
  destruct (is_low_stock_without_quantity entries Hq) as [_ ->].
  rewrite (IH Hitems). reflexivity.
Qed.

Lemma slice_stop_bounds (n : nat) (stop : Z) :
  (0 <= stop -> Z.of_nat (Py.slice_stop n stop) = Z.min (Z.of_nat n) stop)
  /\ (stop < 0 -> Z.of_nat (Py.slice_stop n stop) = Z.max 0 (Z.of_nat n + stop))
  /\ (Py.slice_stop n stop <= n)%nat.
Proof.
  unfold Py.slice_stop. destruct (0 <=? stop) eqn:E.
  - apply Z.leb_le in E. repeat split; lia.
  - apply Z.leb_gt in E. repeat split; lia.
Qed.

Lemma firstn_min_length {A : Type} (l : list A) (n : nat) :
  firstn (Nat.min (List.length l) n) l = firstn n l.
Proof.
  destruct (Nat.le_ge_cases n (List.length l)) as [H | H].
  - now rewrite Nat.min_r.
  - rewrite Nat.min_l by exact H. rewrite firstn_all. symmetry. now apply firstn_all2.
Qed.

Lemma result_map_length {A B : Type} (f : A -> result B) (l : list A) (bs : list B) :
  result_map f l = Ok bs -> List.length bs = List.length l.
Proof.
  revert bs. induction l as [| a l IH]; intros bs H; cbn [result_map] in H.
  - now injection H as <-.
  - destruct (f a); cbn [result_bind] in H; [| discriminate].
    destruct (result_map f l) as [bs' |]; cbn [result_bind] in H; [| discriminate].
    injection H as <-. cbn [List.length]. now rewrite (IH bs' eq_refl).
Qed.

Section LiveMethods.
Variable rt : py_runtime.
Variable env : environment.
Variable self : ShopifyClient.

(** X4: every request [execute_query] makes goes to the normalized shop,
    whose name ends with [.myshopify.com], under the fixed API version,
    to one of the four endpoints, and carries as its only header the
    access token the environment holds for that shop; the token is never
    empty. *)
Theorem execute_query_request (store_id : string) (query query_type : py_value)
        (req : http_request) (k : http_outcome -> prog py_value) :
  execute_query rt env self store_id query query_type = Get req k ->
  let shop := _normalize_shop store_id in
  let access_token := getenv env (access_token_variable shop) "" in
  access_token <> ""
  /\ headers req = [("X-Shopify-Access-Token", access_token)]
  /\ PyStr.endswith shop ".myshopify.com" = true
  /\ exists path,
      url req = ("https://" ++ shop ++ "/admin/api/" ++ api_version self ++ path)%string
      /\ (path = "/inventory_levels.json"
          \/ (exists limit, path = ("/products.json?limit=" ++ PyStr.of_Z limit)%string)
          \/ path = "/orders.json?status=any&limit=250"
          \/ path = "/customers.json?limit=250").
Proof.
  intros H shop access_token. unfold execute_query in H.
  fold shop in H. fold access_token in H.
  assert (Hmock : forall qt q, _get_mock_data qt q <> Get req k).
  { intros qt q. destruct (mock_data_fetched qt q) as [data ->]. discriminate. }
  destruct (negb (Py.truthy (PStr access_token))) eqn:Htoken;
    [now apply Hmock in H |].
  split.
  { intros E. rewrite E in Htoken. discriminate. }
  split; [| split; [apply normalize_shop_suffix |]].
  - repeat match type of H with
           | (if ?b then _ else _) = _ => destruct b
           end; try (now apply Hmock in H).
    all: try (injection H as <- _; reflexivity).
    unfold _get_products_data in H. destruct query; try discriminate.
    injection H as <- _. reflexivity.
  - repeat match type of H with
           | (if ?b then _ else _) = _ => destruct b
           end; try (now apply Hmock in H).
    + injection H as <- _. eexists. split; [reflexivity | auto].
    + unfold _get_products_data in H. destruct query; try discriminate.
      injection H as <- _. eexists. split; [reflexivity |]. right. left. eexists. reflexivity.
    + injection H as <- _. eexists. split; [reflexivity | auto].
    + injection H as <- _. eexists. split; [reflexivity | auto].
Qed.

(** X5: [_get_products_data] keeps the first products of the response:
    with a limit that is not negative, at most that many; with a negative
    limit, all but that many at the end.  The limit also stands in the
    URL, and it is 5 when the upper-cased query holds no LIMIT. *)
Theorem get_products_data_limit (shop access_token q : string)
        (body : list (string * py_value)) (items : list py_value)
        (req : http_request) (k : http_outcome -> prog py_value) :
  _get_products_data rt self shop access_token (PStr q) = Get req k ->
  Py.dict_get body "products" (PList []) = PList items ->
  let limit := query_limit rt (PyStr.upper q) in
  exists kept dropped,
    items = kept ++ dropped
    /\ k (HttpResponse 200 (Ok (PDict body))) = Return (fetched (PList kept))
    /\ (0 <= limit -> Z.of_nat (List.length kept) = Z.min (Z.of_nat (List.length items)) limit)
    /\ (limit < 0 ->
        Z.of_nat (List.length kept) = Z.max 0 (Z.of_nat (List.length items) + limit))
    /\ url req = ("https://" ++ shop ++ "/admin/api/" ++ api_version self
                  ++ "/products.json?limit=" ++ PyStr.of_Z limit)%string
    /\ (PyStr.contains "LIMIT" (PyStr.upper q) = false -> limit = 5).
Proof.
  intros H Hproducts limit. unfold _get_products_data in H. fold limit in H.
  injection H as <- <-.
  set (n := Py.slice_stop (List.length items) limit).
  destruct (slice_stop_bounds (List.length items) limit) as (Hpos & Hneg & Hle).
  fold n in Hpos, Hneg, Hle.
  assert (Hlen : List.length (firstn n items) = n) by (apply firstn_length_le; exact Hle).
  exists (firstn n items), (skipn n items).
  split; [symmetry; apply firstn_skipn |].
  split.
  { unfold products_attempt. cbn [Z.eqb Pos.eqb result_bind Py.get].
    rewrite Hproducts. reflexivity. }
  rewrite Hlen. split; [exact Hpos | split; [exact Hneg | split; [reflexivity |]]].
  intros Hno. unfold limit, query_limit. rewrite Hno. reflexivity.
Qed.

(** X6: [_get_customers_data] counts every customer of the response and
    passes on the first ten at most; a response without the key
    customers counts as no customer. *)
Theorem get_customers_data_sample (shop access_token : string) (query : py_value)
        (body : list (string * py_value)) (items : list py_value)
        (req : http_request) (k : http_outcome -> prog py_value) :
  _get_customers_data self shop access_token query = Get req k ->
  Py.dict_get body "customers" (PList []) = PList items ->
  k (HttpResponse 200 (Ok (PDict body)))
  = Return (fetched (PDict [("customer_count", PInt (Z.of_nat (List.length items)));
                            ("customers", PList (firstn 10 items))]))
  /\ (List.length (firstn 10 items) <= 10)%nat
  /\ (Py.lookup "customers" body = None -> items = []).
Proof.
  intros H Hcustomers. unfold _get_customers_data in H. injection H as _ <-.
  split; [| split].
  - unfold customers_attempt. cbn [Z.eqb Pos.eqb result_bind Py.get].
    rewrite Hcustomers. cbn [Py.len Py.slice_to result_bind or_mock].
    unfold Py.slice_stop. change (0 <=? 10) with true. cbn iota.
    change (Z.to_nat 10) with 10%nat. rewrite firstn_min_length. reflexivity.
  - apply firstn_le_length.
  - intros Hmissing. unfold Py.dict_get in Hcustomers. rewrite Hmissing in Hcustomers.
    now injection Hcustomers.
Qed.


(** X7: when every order of the response has a total price that converts
    to a float, [_get_orders_data] gives the sum of the totals, the
    number of all the orders and the first ten orders at most; without
    any order the total is the integer 0. *)
Theorem get_orders_data_totals (shop access_token : string) (query : py_value)
        (body : list (string * py_value)) (items : list py_value) (totals : list float)
        (req : http_request) (k : http_outcome -> prog py_value) :
  _get_orders_data rt self shop access_token query = Get req k ->
  Py.dict_get body "orders" (PList []) = PList items ->
  result_map (order_total rt) items = Ok totals ->
  k (HttpResponse 200 (Ok (PDict body)))
  = Return (fetched (PDict [("total_sales", Py.sum_floats rt totals);
                            ("order_count", PInt (Z.of_nat (List.length items)));
                            ("orders", PList (firstn 10 items))]))
  /\ List.length totals = List.length items
  /\ (items = [] -> Py.sum_floats rt totals = PInt 0).
Proof.
  intros H Horders Htotals. unfold _get_orders_data in H. injection H as _ <-.
  split; [| split].
  - unfold orders_attempt. cbn [Z.eqb Pos.eqb result_bind Py.get].
    rewrite Horders. cbn [Py.iterate result_bind]. rewrite Htotals.
    cbn [Py.len Py.slice_to result_bind or_mock].
    unfold Py.slice_stop. change (0 <=? 10) with true. cbn iota.
    change (Z.to_nat 10) with 10%nat. rewrite firstn_min_length. reflexivity.
  - now apply result_map_length in Htotals.
  - intros ->. cbn [result_map] in Htotals. now injection Htotals as <-.
Qed.

(** X8: one order whose total price does not convert to a float (or that
    is not a dictionary) makes [_get_orders_data] drop the whole response
    and return the mock sales data. *)
Theorem get_orders_data_malformed_order (shop access_token : string) (query : py_value)
        (body : list (string * py_value)) (items : list py_value)
        (order : py_value) (e : exn)
        (req : http_request) (k : http_outcome -> prog py_value) :
  _get_orders_data rt self shop access_token query = Get req k ->
  Py.dict_get body "orders" (PList []) = PList items ->
  In order items ->
  order_total rt order = Raise e ->
  k (HttpResponse 200 (Ok (PDict body))) = _get_mock_data (PStr "sales") query.
Proof.
  intros H Horders Hin Horder. unfold _get_orders_data in H. injection H as _ <-.
  unfold orders_attempt. cbn [Z.eqb Pos.eqb result_bind Py.get].
  rewrite Horders. cbn [Py.iterate result_bind].
  destruct (result_map_raises (order_total rt) items order e Hin Horder) as [e' ->].
  reflexivity.
Qed.

Lemma sales_explanation_of_total (question : string) (total : py_value)
      (rest : list (string * py_value)) :
  total = PInt 0 \/ (exists x, total = PFloat x) ->
  exists amount,
    _fallback_explanation rt question (PDict (("total_sales", total) :: rest)) (PStr "sales")
    = Ok (explanation ("Total sales: $" ++ amount ++ " for the requested period.") "medium").
Proof.
  intros [-> | [x ->]]; eexists; unfold _fallback_explanation;
    cbn [Py.truthy negb Py.eq_str];
    change (String.eqb "sales" "inventory") with false;
    change (String.eqb "sales" "products") with false;
    change (String.eqb "sales" "sales") with true;
    cbn iota; unfold Py.get, Py.dict_get; cbn [Py.lookup];
    change (String.eqb "total_sales" "total_sales") with true;
    cbn iota; cbn [result_bind]; reflexivity.
Qed.

(** X9: whatever Shopify answers, and with or without a token, the data
    [execute_query] returns for the sales intent is then explained by the
    fallback explanation without an exception: a total sales sentence
    with the confidence medium. *)
Theorem execute_query_sales_explained (store_id : string) (query : py_value) :
  always_returns
    (fun fetch_result =>
       exists data,
         fetch_result = fetched data
         /\ forall question,
             exists amount,
               _fallback_explanation rt question data (PStr "sales")
               = Ok (explanation ("Total sales: $" ++ amount ++ " for the requested period.")
                                 "medium"))
    (execute_query rt env self store_id query (PStr "sales")).
Proof.
  assert (Hmock : always_returns
                    (fun fetch_result =>
                       exists data,
                         fetch_result = fetched data
                         /\ forall question,
                             exists amount,
                               _fallback_explanation rt question data (PStr "sales")
                               = Ok (explanation
                                       ("Total sales: $" ++ amount
                                        ++ " for the requested period.") "medium"))
                    (_get_mock_data (PStr "sales") query)).
  { eexists. split; [reflexivity |]. intros question.
    apply sales_explanation_of_total. right. eexists. reflexivity. }
  unfold execute_query. destruct (negb _); [exact Hmock |].
  change (Py.eq_str (PStr "sales") "inventory") with false.
  change (Py.eq_str (PStr "sales") "products") with false.
  change (Py.eq_str (PStr "sales") "sales") with true. cbn iota.
  unfold _get_orders_data. intros outcome.
  destruct (orders_attempt rt outcome) as [[fetch_result |] | e] eqn:Hattempt;
    cbn [or_mock]; try exact Hmock.
  unfold orders_attempt in Hattempt.
  destruct outcome as [e | status_code json]; [discriminate |].
  destruct (status_code =? 200); [| discriminate].
  repeat match type of Hattempt with
         | result_bind ?r _ = _ =>
             destruct r; cbn [result_bind] in Hattempt; [| discriminate]
         end.
  injection Hattempt as <-. eexists. split; [reflexivity |]. intros question.
  apply sales_explanation_of_total.
  unfold Py.sum_floats.
  match goal with
  | |- context [match ?totals with [] => _ | _ :: _ => _ end] => destruct totals
  end; [now left | right; eexists; reflexivity].
Qed.

(** X10: [_get_inventory_data] passes the inventory levels on as they
    are, and the fallback explanation reads the key quantity: for a
    non-empty list of levels none of which has that key, every level is
    counted as low inventory. *)
Theorem get_inventory_data_without_quantity (shop access_token question : string)
        (body : list (string * py_value)) (items : list py_value)
        (req : http_request) (k : http_outcome -> prog py_value) :
  _get_inventory_data self shop access_token = Get req k ->
  Py.dict_get body "inventory_levels" (PList []) = PList items ->
  items <> [] ->
  forallb lacks_quantity items = true ->
  k (HttpResponse 200 (Ok (PDict body))) = Return (fetched (PList items))
  /\ _fallback_explanation rt question (PList items) (PStr "inventory")
     = Ok (explanation
             ("Found " ++ count_text items
              ++ " products with low inventory (less than 20 units). Consider reordering soon.")
             "medium").
Proof.
  intros H Hlevels Hitems Hlacks. unfold _get_inventory_data in H. injection H as _ <-.
  split.
  - unfold inventory_attempt. cbn [Z.eqb Pos.eqb result_bind Py.get].
    rewrite Hlevels. reflexivity.
  - unfold _fallback_explanation.
    destruct items as [| item items]; [contradiction |].
    cbn [Py.truthy negb].
    change (Py.eq_str (PStr "inventory") "inventory") with true. cbn iota.
    change (0 <? Z.of_nat (List.length (item :: items))) with true. cbn iota.
    rewrite (low_stock_without_quantity _ Hlacks). reflexivity.
Qed.

(** X11: a response with status 200 that holds no inventory levels (the
    key is missing, or its value is empty) is a success of
    [_get_inventory_data] with empty data, which the fallback explanation
    reports as data that could not be retrieved, with the confidence low,
    as it does for the products intent. *)
Theorem get_inventory_data_empty (shop access_token question : string)
        (body : list (string * py_value)) (levels : py_value)
        (req : http_request) (k : http_outcome -> prog py_value) :
  _get_inventory_data self shop access_token = Get req k ->
  Py.dict_get body "inventory_levels" (PList []) = levels ->
  Py.truthy levels = false ->
  k (HttpResponse 200 (Ok (PDict body))) = Return (fetched levels)
  /\ succeeded (fetched levels)
  /\ _fallback_explanation rt question levels (PStr "inventory")
     = Ok (explanation
             "I couldn't retrieve the requested data. Please check your store connection and try again."
             "low")
  /\ (Py.lookup "inventory_levels" body = None -> levels = PList []).
Proof.
  intros H Hlevels Hempty. unfold _get_inventory_data in H. injection H as _ <-.
  split; [| split; [apply fetched_succeeded | split]].
  - unfold inventory_attempt. cbn [Z.eqb Pos.eqb result_bind Py.get].
    rewrite Hlevels. reflexivity.
  - unfold _fallback_explanation. rewrite Hempty. reflexivity.
  - intros Hmissing. unfold Py.dict_get in Hlevels. now rewrite Hmissing in Hlevels.
Qed.

End LiveMethods.

Lemma execute_query_request_witness :
  getenv env_with_token (access_token_variable (_normalize_shop "https://my-shop.example.com")) ""
  = "shpat_example"
  /\ forall rt,
      exists req k,
        execute_query rt env_with_token ShopifyClient__init__ "https://my-shop.example.com"
                      (PStr "SHOW total_sales FROM orders SINCE -30d") (PStr "sales")
        = Get req k
        /\ url req
           = "https://my-shop.myshopify.com/admin/api/2024-01/orders.json?status=any&limit=250"
        /\ headers req = [("X-Shopify-Access-Token", "shpat_example")].
Proof.
  split; [reflexivity |]. intros rt. do 2 eexists. split; [reflexivity |].
  destruct (execute_query_request rt env_with_token ShopifyClient__init__
              "https://my-shop.example.com"
              (PStr "SHOW total_sales FROM orders SINCE -30d") (PStr "sales")
              _ _ eq_refl) as (_ & Hheaders & _ & _).
  split; [reflexivity | exact Hheaders].
Defined.

Lemma get_products_data_limit_witness :
  Py.dict_get [("products", PList (map PInt [1; 2; 3; 4; 5; 6; 7]))] "products" (PList [])
  = PList (map PInt [1; 2; 3; 4; 5; 6; 7])
  /\ forall rt,
      exists req k kept dropped,
        _get_products_data rt ShopifyClient__init__ "my-shop.myshopify.com" "shpat_example"
                           (PStr "SHOW top_selling_products FROM orders")
        = Get req k
        /\ map PInt [1; 2; 3; 4; 5; 6; 7] = kept ++ dropped
        /\ k (HttpResponse 200
                (Ok (PDict [("products", PList (map PInt [1; 2; 3; 4; 5; 6; 7]))])))
           = Return (fetched (PList kept))
        /\ Z.of_nat (List.length kept) = 5.
Proof.
  split; [reflexivity |]. intros rt.
  destruct (get_products_data_limit rt ShopifyClient__init__
              "my-shop.myshopify.com" "shpat_example"
              "SHOW top_selling_products FROM orders"
              [("products", PList (map PInt [1; 2; 3; 4; 5; 6; 7]))]
              (map PInt [1; 2; 3; 4; 5; 6; 7]) _ _ eq_refl eq_refl)
    as (kept & dropped & Hitems & Hk & Hpos & _ & _ & Hdefault).
  do 2 eexists. exists kept, dropped.
  split; [reflexivity | split; [exact Hitems | split; [exact Hk |]]].
  rewrite (Hdefault eq_refl) in Hpos. rewrite Hpos by lia. reflexivity.
Defined.

Lemma get_customers_data_sample_witness :
  Py.dict_get [("errors", PStr "none")] "customers" (PList []) = PList []
  /\ exists req k,
      _get_customers_data ShopifyClient__init__ "my-shop.myshopify.com" "shpat_example"
                          (PStr "SHOW customer_count FROM customers")
      = Get req k
      /\ k (HttpResponse 200 (Ok (PDict [("errors", PStr "none")])))
         = Return (fetched (PDict [("customer_count", PInt 0); ("customers", PList [])])).
Proof.
  split; [reflexivity |]. do 2 eexists. split; [reflexivity |].
  apply (get_customers_data_sample ShopifyClient__init__
           "my-shop.myshopify.com" "shpat_example"
           (PStr "SHOW customer_count FROM customers")
           [("errors", PStr "none")] [] _ _ eq_refl eq_refl).
Defined.

Lemma get_orders_data_totals_witness :
  Py.dict_get [("orders", PList [PDict [("total_price", PFloat 12.5)]])] "orders" (PList [])
  = PList [PDict [("total_price", PFloat 12.5)]]
  /\ forall rt,
      exists req k,
        _get_orders_data rt ShopifyClient__init__ "my-shop.myshopify.com" "shpat_example"
                         (PStr "SHOW total_sales FROM orders")
        = Get req k
        /\ k (HttpResponse 200
                (Ok (PDict [("orders", PList [PDict [("total_price", PFloat 12.5)]])])))
           = Return (fetched (PDict [("total_sales", PFloat (float_sum rt [12.5%float]));
                                     ("order_count", PInt 1);
                                     ("orders", PList [PDict [("total_price", PFloat 12.5)]])])).
Proof.
  split; [reflexivity |]. intros rt. do 2 eexists. split; [reflexivity |].
  apply (get_orders_data_totals rt ShopifyClient__init__
           "my-shop.myshopify.com" "shpat_example" (PStr "SHOW total_sales FROM orders")
           [("orders", PList [PDict [("total_price", PFloat 12.5)]])]
           [PDict [("total_price", PFloat 12.5)]] [12.5%float] _ _ eq_refl eq_refl eq_refl).
Defined.

Lemma get_orders_data_malformed_order_witness :
  In (PDict [("total_price", PNone)])
     [PDict [("total_price", PFloat 12.5)]; PDict [("total_price", PNone)]]
  /\ forall rt,
      exists req k,
        _get_orders_data rt ShopifyClient__init__ "my-shop.myshopify.com" "shpat_example"
                         (PStr "SHOW total_sales FROM orders")
        = Get req k
        /\ k (HttpResponse 200
                (Ok (PDict [("orders", PList [PDict [("total_price", PFloat 12.5)];
                                              PDict [("total_price", PNone)]])])))
           = _get_mock_data (PStr "sales") (PStr "SHOW total_sales FROM orders").
Proof.
  split; [cbn [In]; auto |]. intros rt. do 2 eexists. split; [reflexivity |].
  apply (get_orders_data_malformed_order rt ShopifyClient__init__
           "my-shop.myshopify.com" "shpat_example" (PStr "SHOW total_sales FROM orders")
           [("orders", PList [PDict [("total_price", PFloat 12.5)];
                              PDict [("total_price", PNone)]])]
           [PDict [("total_price", PFloat 12.5)]; PDict [("total_price", PNone)]]
           (PDict [("total_price", PNone)])
           (Exn TypeError "float() argument must be a string or a real number, not 'NoneType'")
           _ _ eq_refl eq_refl).
  - cbn [In]. auto.
  - reflexivity.
Defined.

Lemma get_inventory_data_without_quantity_witness :
  forallb lacks_quantity [PDict [("inventory_item_id", PInt 7); ("available", PInt 300)];
                          PDict [("inventory_item_id", PInt 8); ("available", PInt 250)]]
  = true
  /\ forall rt question,
      _fallback_explanation rt question
        (PList [PDict [("inventory_item_id", PInt 7); ("available", PInt 300)];
                PDict [("inventory_item_id", PInt 8); ("available", PInt 250)]])
        (PStr "inventory")
      = Ok (explanation
              "Found 2 products with low inventory (less than 20 units). Consider reordering soon."
              "medium").
Proof.
  split; [reflexivity |]. intros rt question.
  apply (get_inventory_data_without_quantity rt ShopifyClient__init__
           "my-shop.myshopify.com" "shpat_example" question
           [("inventory_levels",
             PList [PDict [("inventory_item_id", PInt 7); ("available", PInt 300)];
                    PDict [("inventory_item_id", PInt 8); ("available", PInt 250)]])]
           [PDict [("inventory_item_id", PInt 7); ("available", PInt 300)];
            PDict [("inventory_item_id", PInt 8); ("available", PInt 250)]]
           _ _ eq_refl eq_refl); [discriminate | reflexivity].
Defined.

Lemma get_inventory_data_empty_witness :
  Py.truthy (PList []) = false
  /\ forall rt question,
      exists req k,
        _get_inventory_data ShopifyClient__init__ "my-shop.myshopify.com" "shpat_example"
        = Get req k
        /\ k (HttpResponse 200 (Ok (PDict [("errors", PStr "none")])))
           = Return (fetched (PList []))
        /\ _fallback_explanation rt question (PList []) (PStr "inventory")
           = Ok (explanation
                   "I couldn't retrieve the requested data. Please check your store connection and try again."
                   "low").
Proof.
  split; [reflexivity |]. intros rt question. do 2 eexists. split; [reflexivity |].
  destruct (get_inventory_data_empty rt ShopifyClient__init__
              "my-shop.myshopify.com" "shpat_example" question
              [("errors", PStr "none")] (PList []) _ _ eq_refl eq_refl eq_refl)
    as (Hk & _ & Hexplained & _).
  split; [exact Hk | exact Hexplained].
Defined.

(** ** The pipeline as a whole *)

Lemma within_mono {A : Type} (p : prog A) (chats requests chats' requests' : nat) :
  within p chats requests -> (chats <= chats')%nat -> (requests <= requests')%nat ->
  within p chats' requests'.
Proof.
  revert chats requests chats' requests'.
  induction p as [a | e | req k IH | req k IH];
    intros chats requests chats' requests' H Hc Hr; cbn [within] in *; auto.
  - destruct chats as [| chats]; [contradiction |].
    destruct chats' as [| chats']; [lia |].
    intros o. apply (IH o chats requests); [apply H | lia | lia].
  - destruct requests as [| requests]; [contradiction |].
    destruct requests' as [| requests']; [lia |].
    intros o. apply (IH o chats requests); [apply H | lia | lia].
Qed.

Lemma within_bind {A B : Type} (p : prog A) (f : A -> prog B)
      (chats requests chats' requests' : nat) :
  within p chats requests ->
  (forall a, within (f a) chats' requests') ->
  within (prog_bind p f) (chats + chats') (requests + requests').
Proof.
  intros Hp Hf. revert chats requests Hp.
  induction p as [a | e | req k IH | req k IH]; intros chats requests Hp;
    cbn [within prog_bind] in *.
  - apply (within_mono _ chats' requests'); [apply Hf | lia | lia].
  - exact I.
  - destruct chats as [| chats]; [contradiction |].
    cbn [Nat.add]. intros o. apply IH, Hp.
  - destruct requests as [| requests]; [contradiction |].
    cbn [Nat.add]. intros o. apply IH, Hp.
Qed.

Lemma within_try_except {A : Type} (p : prog A) (handler : exn -> prog A)
      (chats requests : nat) :
  within p chats requests ->
  (forall e, within (handler e) 0 0) ->
  within (try_except p handler) chats requests.
Proof.
  intros Hp Hh. revert chats requests Hp.
  induction p as [a | e | req k IH | req k IH]; intros chats requests Hp;
    cbn [within try_except] in *.
  - exact I.
  - apply (within_mono _ 0 0); [apply Hh | lia | lia].
  - destruct chats as [| chats]; [contradiction |]. intros o. apply IH, Hp.
  - destruct requests as [| requests]; [contradiction |]. intros o. apply IH, Hp.
Qed.

Lemma within_call {A : Type} (r : result A) : within (call r) 0 0.
Proof. destruct r; exact I. Qed.

Lemma within_mock_data (query_type query : py_value) :
  within (_get_mock_data query_type query) 0 0.
Proof. destruct (mock_data_fetched query_type query) as [data ->]. exact I. Qed.

Lemma within_or_mock (attempt : result (option py_value)) (query_type query : py_value) :
  within (or_mock attempt (_get_mock_data query_type query)) 0 0.
Proof.
  destruct attempt as [[fetch_result |] | e]; cbn [or_mock];
    first [exact I | apply within_mock_data].
Qed.



Section WholePipeline.
Variable rt : py_runtime.
Variable env : environment.
Variable self : AIAgent.

(** X12: [_generate_shopifyql_query] never raises.  It answers from the
    completion exactly when the completion is a JSON object: with its
    error alone when that is truthy, else with its intent, query and
    reasoning, a missing intent being sales and a missing query or
    reasoning the empty text; in every other case (the call raised, the
    text is not JSON, the JSON is not an object) it answers from the
    keyword fallback. *)
Theorem generate_shopifyql_query_cases (question store_id : string) :
  exists req k,
    _generate_shopifyql_query self question store_id = Chat req k
    /\ chat_messages req
       = [("system", query_system_prompt); ("user", query_user_prompt question)]
    /\ (forall entries,
          k (Ok (PDict entries))
          = Return (if Py.truthy (Py.dict_get entries "error" PNone)
                    then PDict [("error", Py.dict_get entries "error" PNone)]
                    else PDict [("intent", Py.dict_get entries "intent" (PStr "sales"));
                                ("query", Py.dict_get entries "query" (PStr ""));
                                ("reasoning", Py.dict_get entries "reasoning" (PStr ""))]))
    /\ (forall outcome,
          (forall entries, outcome <> Ok (PDict entries)) ->
          k outcome = Return (_fallback_query_generation question)).
Proof.
  do 2 eexists. split; [reflexivity |]. split; [reflexivity |]. split.
  - intros entries. unfold query_of_completion. cbn [result_bind Py.get].
    destruct (Py.truthy (Py.dict_get entries "error" PNone)) eqn:Herror; [| reflexivity].
    unfold Py.getitem. unfold Py.dict_get in *.
    destruct (Py.lookup "error" entries) as [error |]; [reflexivity | discriminate].
  - intros outcome Hnot. unfold query_of_completion.
    destruct outcome as [result | e]; [| reflexivity].
    destruct result; try reflexivity. now elim (Hnot entries).
Qed.


(** X14: [process_question] never raises: on every run it returns a
    dictionary, either with the key error alone or with exactly the keys
    answer, confidence, query_used and data. *)
Theorem process_question_total (question store_id : string) :
  always_returns (fun response => is_error_response response \/ is_answer_response response)
                 (process_question rt env self question store_id).
Proof.
  unfold process_question, always_returns.
  apply ensures_try_except with (F := fun _ => True).
  2: { intros e _. cbn [ensures]. left. eexists. reflexivity. }
  unfold pipeline.
  apply ensures_bind with (Q := query_result_shape).
  { eapply ensures_weaken; [| | apply generate_query_ensures]; [auto | contradiction]. }
  intros query_result Hshape.
  assert (Hdict : is_dict query_result).
  { destruct Hshape as [[error ->] | (entries & -> & _)]; eexists; reflexivity. }
  destruct Hdict as [entries ->].
  cbn [call Py.get prog_bind].
  destruct (Py.truthy (Py.dict_get entries "error" PNone)) eqn:Htruthy.
  { destruct Hshape as [[error H] | (entries' & H & Herror)]; injection H as ->.
    - left. eexists. reflexivity.
    - unfold Py.dict_get in Htruthy. rewrite Herror in Htruthy. discriminate. }
  apply ensures_bind with (Q := succeeded); [apply execute_query_ensures |].
  intros data_result (fetched_entries & -> & _ & Herror).
  cbn [call Py.get prog_bind]. unfold Py.dict_get at 1. rewrite Herror.
  cbn [Py.truthy prog_bind].
  apply ensures_bind with (Q := is_dict); [apply generate_explanation_ensures |].
  intros answer [answer_entries ->].
  cbn [call Py.get prog_bind ensures].
  right. do 4 eexists. reflexivity.
Qed.

(** X15: on every run [process_question] makes at most two chat
    completions and at most one Shopify request; nothing is retried. *)
Theorem process_question_budget (question store_id : string) :
  within (process_question rt env self question store_id) 2 1.
Proof.
  assert (Hquery : within (_generate_shopifyql_query self question store_id) 1 0).
  { intros outcome. destruct (query_of_completion outcome); exact I. }
  assert (Hexplanation : forall data query_type,
             within (_generate_explanation rt self question data query_type) 1 0).
  { intros data query_type outcome.
    destruct (explanation_of_completion outcome); [exact I | apply within_call]. }
  assert (Hexecute : forall query query_type,
             within (execute_query rt env (shopify_client self) store_id query query_type) 0 1).
  { intros query query_type. unfold execute_query.
    assert (Hmock : within (_get_mock_data query_type query) 0 1)
      by (apply (within_mono _ 0 0); [apply within_mock_data | lia | lia]).
    repeat match goal with
           | |- within (if ?b then _ else _) _ _ => destruct b
           end; try exact Hmock.
    - intros outcome. apply within_or_mock.
    - unfold _get_products_data. destruct query; try exact I.
      intros outcome. apply within_or_mock.
    - intros outcome. apply within_or_mock.
    - intros outcome. apply within_or_mock. }
  unfold process_question. apply within_try_except; [| intros e; exact I].
  unfold pipeline.
  apply (within_bind _ _ 1 0 1 1); [exact Hquery |]. intros query_result.
  apply (within_bind _ _ 0 0 1 1); [apply within_call |]. intros error.
  destruct (Py.truthy error); [exact I |].
  apply (within_bind _ _ 0 0 1 1); [apply within_call |]. intros shopifyql_query.
  apply (within_bind _ _ 0 0 1 1); [apply within_call |]. intros intent.
  apply (within_bind _ _ 0 1 1 0); [apply Hexecute |]. intros data_result.
  apply (within_bind _ _ 0 0 1 0); [apply within_call |]. intros fetch_error.
  destruct (Py.truthy fetch_error).
  { apply (within_bind _ _ 0 0 1 0); [apply within_call |]. intros e. exact I. }
  apply (within_bind _ _ 0 0 1 0); [apply within_call |]. intros data.
  apply (within_bind _ _ 1 0 0 0); [apply Hexplanation |]. intros answer.
  apply (within_bind _ _ 0 0 0 0); [apply within_call |]. intros text.
  apply (within_bind _ _ 0 0 0 0); [apply within_call |]. intros confidence.
  apply (within_bind _ _ 0 0 0 0); [apply within_call |]. intros data'.
  exact I.
Qed.

End WholePipeline.

(** ** The pipeline without its services *)

Section Offline.
Variable rt : py_runtime.
Variable env : environment.
Variable self : AIAgent.
Variable chat : chat_request -> result py_value.
Variable http : http_request -> http_outcome.

(** The chat completion fails, whatever it is asked. *)
Hypothesis chat_fails : forall req, exists e, chat req = Raise e.

(** The run of the pipeline when the completions fail and the store has
    no token, from the fallback classification and the mock data. *)
Lemma run_process_question_offline (question store_id intent query text confidence : string)
      (data : py_value) :
  getenv env (access_token_variable (_normalize_shop store_id)) "" = "" ->
  _fallback_query_generation question = query_for intent query ->
  _get_mock_data (PStr intent) (PStr query) = Return (fetched data) ->
  _fallback_explanation rt question data (PStr intent) = Ok (explanation text confidence) ->
  run chat http (process_question rt env self question store_id)
  = Ok (PDict [("answer", PStr text);
               ("confidence", PStr confidence);
               ("query_used", PStr query);
               ("data", data)]).
Proof.
  intros Htoken Hquery Hmock Hexplanation.
  unfold process_question. rewrite run_try_except.
  unfold pipeline.
  rewrite run_bind, (run_generate_query_fallback chat http chat_fails), Hquery.
  cbn [query_for call Py.get prog_bind].
  change (Py.dict_get _ "error" PNone) with PNone.
  cbn [Py.truthy].
  change (Py.dict_get _ "query" PNone) with (PStr query).
  change (Py.dict_get _ "intent" PNone) with (PStr intent).
  rewrite run_bind.
  unfold execute_query at 1. rewrite Htoken.
  cbn [Py.truthy String.eqb negb]. rewrite Hmock.
  cbn [run fetched call Py.get prog_bind].
  change (Py.dict_get _ "error" PNone) with PNone.
  cbn [Py.truthy].
  change (Py.dict_get _ "data" (PDict [])) with data.
  cbn [prog_bind].
  rewrite run_bind, (run_generate_explanation_fallback rt chat http chat_fails), Hexplanation.
  reflexivity.
Qed.

(** X16: when the chat completions fail and the store has no token,
    [process_question] answers every question without an error and
    without a Shopify request: the answer is one of four fixed sentences
    (the fallback explanations of the mock data of the four intents),
    the confidence is medium, and the query is one of the five of the
    fallback classifier. *)
Theorem process_question_offline (question store_id : string) :
  getenv env (access_token_variable (_normalize_shop store_id)) "" = "" ->
  exists answer query data,
    run chat http (process_question rt env self question store_id)
    = Ok (PDict [("answer", PStr answer);
                 ("confidence", PStr "medium");
                 ("query_used", PStr query);
                 ("data", data)])
    /\ In answer offline_answers
    /\ (exists intent, In (query_for intent query) fallback_queries)
    /\ Py.truthy data = true.
Proof.
  intros Htoken.
  pose proof (fallback_query_in_queries question) as Hin.
  cbv [fallback_queries In] in Hin.
  destruct Hin as [E | [E | [E | [E | [E | []]]]]]; symmetry in E;
    do 3 eexists;
    (split;
     [ apply (run_process_question_offline question store_id _ _ _ _ _ Htoken E);
       reflexivity
     | split; [cbv [offline_answers In]; auto 10
              | split; [eexists; cbv [fallback_queries In]; auto 10 | reflexivity]]]).
Qed.

End Offline.

Lemma process_question_offline_witness :
  getenv (fun _ => None) (access_token_variable (_normalize_shop "any-shop")) "" = ""
  /\ forall rt http,
      exists answer query data,
        run (fun _ => Raise (Exn (OtherError "APIConnectionError") "Connection error."))
            http
            (process_question rt (fun _ => None) (AIAgent__init__ (fun _ => None))
                              "Do we have repeat buyers?" "any-shop")
        = Ok (PDict [("answer", PStr answer);
                     ("confidence", PStr "medium");
                     ("query_used", PStr query);
                     ("data", data)])
        /\ In answer offline_answers.
Proof.
  split; [reflexivity |]. intros rt http.
  destruct (process_question_offline rt (fun _ => None) (AIAgent__init__ (fun _ => None))
              (fun _ => Raise (Exn (OtherError "APIConnectionError") "Connection error."))
              http (fun _ => ex_intro _ _ eq_refl)
              "Do we have repeat buyers?" "any-shop" eq_refl)
    as (answer & query & data & Hrun & Hanswer & _).
  exists answer, query, data. split; [exact Hrun | exact Hanswer].
Defined.

(** ** An intent the fetcher does not know *)

Lemma execute_query_unknown_intent (rt : py_runtime) (env : environment)
      (client : ShopifyClient) (store_id : string) (query query_type : py_value) :
  is_unknown_intent query_type = true ->
  execute_query rt env client store_id query query_type = Return (fetched (PDict [])).
Proof.
  unfold is_unknown_intent. intros H. apply negb_true_iff in H.
  apply orb_false_iff in H. destruct H as [H Hcustomers].
  apply orb_false_iff in H. destruct H as [H Hsales].
  apply orb_false_iff in H. destruct H as [Hinventory Hproducts].
  unfold execute_query, _get_mock_data.
  rewrite Hinventory, Hproducts, Hsales, Hcustomers.
  destruct (negb _); reflexivity.
Qed.

(** X17: an intent of the model that is none of the four is not
    rejected.  With or without a token, [process_question] then makes no
    Shopify request and passes the empty mock data on; when the second
    completion fails, the answer is the sentence about data that could
    not be retrieved, with the confidence low, next to the query of the
    model. *)
Theorem process_question_unknown_intent (rt : py_runtime) (env : environment)
        (self : AIAgent) (question store_id : string)
        (entries : list (string * py_value)) :
  Py.truthy (Py.dict_get entries "error" PNone) = false ->
  is_unknown_intent (Py.dict_get entries "intent" (PStr "sales")) = true ->
  exists req1 k1 req2 k2,
    process_question rt env self question store_id = Chat req1 k1
    /\ k1 (Ok (PDict entries)) = Chat req2 k2
    /\ forall e,
        k2 (Raise e)
        = Return (PDict [("answer",
                          PStr "I couldn't retrieve the requested data. Please check your store connection and try again.");
                         ("confidence", PStr "low");
                         ("query_used", Py.dict_get entries "query" (PStr ""));
                         ("data", PDict [])]).
Proof.
  intros Herror Hintent.
  unfold process_question, pipeline, _generate_shopifyql_query.
  cbn [prog_bind try_except].
  do 2 eexists.
  exists (completion self explanation_system_prompt
            (explanation_user_prompt rt question (PDict [])
               (Py.dict_get entries "intent" (PStr "sales"))) 0.5).
  eexists. split; [reflexivity |].
  unfold query_of_completion. cbn [result_bind Py.get]. rewrite Herror.
  cbn [prog_bind try_except call Py.get].
  change (Py.dict_get [("intent", _); ("query", _); ("reasoning", _)] "error" PNone)
    with PNone.
  cbn [Py.truthy prog_bind try_except call].
  change (Py.dict_get [("intent", ?i); ("query", ?q); ("reasoning", ?r)] "query" PNone)
    with (Py.dict_get entries "query" (PStr "")).
  change (Py.dict_get [("intent", Py.dict_get entries "intent" (PStr "sales"));
                       ("query", _); ("reasoning", _)] "intent" PNone)
    with (Py.dict_get entries "intent" (PStr "sales")).
  rewrite (execute_query_unknown_intent rt env (shopify_client self) store_id _ _ Hintent).
  cbn [prog_bind try_except call fetched Py.get].
  change (Py.dict_get [("data", PDict []); ("success", PBool true)] "error" PNone)
    with PNone.
  cbn [Py.truthy prog_bind try_except call].
  change (Py.dict_get [("data", PDict []); ("success", PBool true)] "data" (PDict []))
    with (PDict []).
  unfold _generate_explanation. cbn [prog_bind try_except].
  split; [reflexivity |].
  intros e. cbn [explanation_of_completion result_bind].
  reflexivity.
Qed.

Lemma process_question_unknown_intent_witness :
  is_unknown_intent (Py.dict_get [("intent", PStr "orders"); ("query", PStr "SHOW orders")]
                                 "intent" (PStr "sales")) = true
  /\ forall rt http,
      run (fun req =>
             if PrimFloat.eqb (chat_temperature req) 0.3
             then Ok (PDict [("intent", PStr "orders"); ("query", PStr "SHOW orders")])
             else Raise (Exn (OtherError "APIConnectionError") "Connection error."))
          http
          (process_question rt env_with_token (AIAgent__init__ env_with_token)
                            "How many orders?" "my-shop")
      = Ok (PDict [("answer",
                    PStr "I couldn't retrieve the requested data. Please check your store connection and try again.");
                   ("confidence", PStr "low");
                   ("query_used", PStr "SHOW orders");
                   ("data", PDict [])]).
Proof.
  split; [reflexivity |]. intros rt http.
  destruct (process_question_unknown_intent rt env_with_token
              (AIAgent__init__ env_with_token) "How many orders?" "my-shop"
              [("intent", PStr "orders"); ("query", PStr "SHOW orders")] eq_refl eq_refl)
    as (req1 & k1 & req2 & k2 & H1 & H2 & H3).
  rewrite H1. cbn [run].
  assert (E1 : PrimFloat.eqb (chat_temperature req1) 0.3 = true).
  { unfold process_question, pipeline, _generate_shopifyql_query in H1.
    cbn [prog_bind try_except] in H1. injection H1 as <- _. reflexivity. }
  rewrite E1, H2. cbn [run].
  assert (E2 : PrimFloat.eqb (chat_temperature req2) 0.3 = false).
  { unfold process_question, pipeline, _generate_shopifyql_query in H1.
    cbn [prog_bind try_except] in H1. injection H1 as _ <-.
    revert H2. unfold query_of_completion. cbn [result_bind Py.get Py.dict_get Py.lookup].
    vm_compute. intros H2. injection H2 as <- _. reflexivity. }
  rewrite E2, H3. reflexivity.
Defined.

(** ** A query of the model that is not a text *)

(** X21: when the store has a token and the model gives the intent
    products with a query that is not a text (a null, a number), the
    pipeline stops before any Shopify request and before the second
    completion: [query.upper()] raises outside of every [try] of the
    client, and [process_question] returns the agent processing error
    with the text of that exception. *)
Theorem process_question_query_not_text (rt : py_runtime) (env : environment)
        (self : AIAgent) (question store_id : string)
        (entries : list (string * py_value)) :
  getenv env (access_token_variable (_normalize_shop store_id)) "" <> "" ->
  Py.truthy (Py.dict_get entries "error" PNone) = false ->
  Py.dict_get entries "intent" (PStr "sales") = PStr "products" ->
  (forall q, Py.dict_get entries "query" (PStr "") <> PStr q) ->
  exists req1 k1,
    process_question rt env self question store_id = Chat req1 k1
    /\ k1 (Ok (PDict entries))
       = Return (PDict [("error",
                         PStr ("Agent processing error: '"
                               ++ Py.type_name (Py.dict_get entries "query" (PStr ""))
                               ++ "' object has no attribute 'upper'"))]).
Proof.
  intros Htoken Herror Hintent Hquery.
  unfold process_question, pipeline, _generate_shopifyql_query.
  cbn [prog_bind try_except].
  do 2 eexists. split; [reflexivity |].
  unfold query_of_completion. cbn [result_bind Py.get]. rewrite Herror, Hintent.
  cbn [prog_bind try_except call Py.get].
  change (Py.dict_get [("intent", _); ("query", _); ("reasoning", _)] "error" PNone)
    with PNone.
  cbn [Py.truthy prog_bind try_except call].
  change (Py.dict_get [("intent", ?i); ("query", ?q); ("reasoning", ?r)] "query" PNone)
    with (Py.dict_get entries "query" (PStr "")).
  change (Py.dict_get [("intent", PStr "products"); ("query", _); ("reasoning", _)]
                      "intent" PNone)
    with (PStr "products").
  unfold execute_query.
  assert (Hpresent : negb (Py.truthy
                             (PStr (getenv env (access_token_variable
                                                  (_normalize_shop store_id)) "")))
                     = false).
  { cbn [Py.truthy]. rewrite negb_involutive. now apply String.eqb_neq. }
  rewrite Hpresent.
  change (Py.eq_str (PStr "products") "inventory") with false.
  change (Py.eq_str (PStr "products") "products") with true. cbn iota.
  unfold _get_products_data.
  destruct (Py.dict_get entries "query" (PStr "")) as [| b | n | x | q | items | dict] eqn:E;
    try reflexivity.
  now elim (Hquery q).
Qed.

Lemma process_question_query_not_text_witness :
  getenv env_with_token (access_token_variable (_normalize_shop "my-shop")) "" <> ""
  /\ forall rt http,
      run (fun _ => Ok (PDict [("intent", PStr "products"); ("query", PNone)])) http
          (process_question rt env_with_token (AIAgent__init__ env_with_token)
                            "best sellers" "my-shop")
      = Ok (PDict [("error",
                    PStr "Agent processing error: 'NoneType' object has no attribute 'upper'")]).
Proof.
  split; [discriminate |]. intros rt http.
  destruct (process_question_query_not_text rt env_with_token
              (AIAgent__init__ env_with_token) "best sellers" "my-shop"
              [("intent", PStr "products"); ("query", PNone)])
    as (req1 & k1 & H1 & H2).
  - discriminate.
  - reflexivity.
  - reflexivity.
  - discriminate.
  - rewrite H1. cbn [run]. rewrite H2. reflexivity.
Defined.

(** ** The endpoint *)

Lemma attempt_ensures {A : Type} (p : prog A) :
  always_returns (fun _ => True) (attempt p).
Proof.
  unfold attempt, always_returns.
  induction p as [a | e | req k IH | req k IH]; cbn [prog_bind try_except ensures]; auto.
Qed.

Lemma run_attempt {A : Type} chat http (p : prog A) :
  run chat http (attempt p) = Ok (run chat http p).
Proof.
  unfold attempt. rewrite run_try_except, run_bind.
  destruct (run chat http p); reflexivity.
Qed.

Section Endpoint.
Variable rt : py_runtime.
Variable fw : web_framework.
Variable env : environment.

(** X18: [analyze_question] lets no exception out but [HTTPException],
    and always with the status 500 and a detail that starts with
    Internal server error: the status 400 it raises inside its [try]
    block is caught by its own handler, so it never reaches the caller. *)
Theorem analyze_question_status (request : QuestionRequest) :
  always_returns
    (fun outcome =>
       match outcome with
       | Responded _ => True
       | Raised (HTTPException status_code detail) =>
           status_code = 500
           /\ exists text, detail = PStr ("Internal server error: " ++ text)
       end)
    (analyze_question rt fw env request).
Proof.
  unfold analyze_question, always_returns.
  apply ensures_bind with (Q := fun _ => True); [apply attempt_ensures |].
  intros outcome _.
  destruct outcome as [[[status_code detail] | response] | e]; cbn [ensures].
  - split; [reflexivity | eexists; reflexivity].
  - exact I.
  - split; [reflexivity | eexists; reflexivity].
Qed.

(** X19: when [process_question] returns an error (the model found the
    question unanswerable, or the agent failed), the endpoint raises the
    status 500 whose detail wraps the text of the [HTTPException] with
    status 400 and that error. *)
Theorem analyze_question_pipeline_error (request : QuestionRequest)
        (chat : chat_request -> result py_value) (http : http_request -> http_outcome)
        (entries : list (string * py_value)) (error : py_value) :
  run chat http (process_question rt env (AIAgent__init__ env)
                                  (request_question request) (request_store_id request))
  = Ok (PDict entries) ->
  Py.lookup "error" entries = Some error ->
  Py.truthy error = true ->
  run chat http (analyze_question rt fw env request)
  = Ok (Raised (HTTPException 500
                  (PStr ("Internal server error: " ++ http_exception_str fw 400 error)))).
Proof.
  intros Hrun Herror Htruthy.
  unfold analyze_question. rewrite run_bind, run_attempt.
  unfold analyze_question_body. rewrite run_bind, Hrun.
  cbn [call Py.get prog_bind]. unfold Py.dict_get. rewrite Herror, Htruthy.
  cbn [Py.getitem]. rewrite Herror. reflexivity.
Qed.

(** X20: when [process_question] returns an answer, the endpoint builds
    the response model from its four entries; when the construction of
    the model raises (a validation error), the endpoint raises the status
    500 with the text of that error. *)
Theorem analyze_question_answer (request : QuestionRequest)
        (chat : chat_request -> result py_value) (http : http_request -> http_outcome)
        (answer confidence query_used data : py_value) :
  run chat http (process_question rt env (AIAgent__init__ env)
                                  (request_question request) (request_store_id request))
  = Ok (PDict [("answer", answer); ("confidence", confidence);
               ("query_used", query_used); ("data", data)]) ->
  run chat http (analyze_question rt fw env request)
  = Ok (match QuestionResponse fw answer confidence query_used data with
        | Ok response => Responded response
        | Raise e =>
            Raised (HTTPException 500 (PStr ("Internal server error: " ++ exn_message e)))
        end).
Proof.
  intros Hrun.
  unfold analyze_question. rewrite run_bind, run_attempt.
  unfold analyze_question_body. rewrite run_bind, Hrun.
  cbn [call Py.get prog_bind].
  change (Py.dict_get _ "error" PNone) with PNone. cbn [Py.truthy].
  change (Py.dict_get _ "answer" (PStr "Unable to generate answer")) with answer.
  change (Py.dict_get _ "confidence" (PStr "low")) with confidence.
  change (Py.dict_get _ "query_used" PNone) with query_used.
  change (Py.dict_get _ "data" PNone) with data.
  cbn [prog_bind].
  destruct (QuestionResponse fw answer confidence query_used data); reflexivity.
Qed.

End Endpoint.

Lemma analyze_question_pipeline_error_witness :
  Py.truthy (PStr "The question is ambiguous.") = true
  /\ forall rt fw http,
      run (fun _ => Ok (PDict [("error", PStr "The question is ambiguous.")])) http
          (analyze_question rt fw (fun _ => None)
             {| request_store_id := "my-shop"; request_question := "hello" |})
      = Ok (Raised (HTTPException 500
                      (PStr ("Internal server error: "
                             ++ http_exception_str fw 400
                                  (PStr "The question is ambiguous."))))).
Proof.
  split; [reflexivity |]. intros rt fw http.
  apply (analyze_question_pipeline_error rt fw (fun _ => None)
           {| request_store_id := "my-shop"; request_question := "hello" |}
           (fun _ => Ok (PDict [("error", PStr "The question is ambiguous.")])) http
           [("error", PStr "The question is ambiguous.")]
           (PStr "The question is ambiguous.")); reflexivity.
Defined.

Lemma analyze_question_answer_witness :
  getenv (fun _ => None) (access_token_variable (_normalize_shop "my-shop")) "" = ""
  /\ forall rt fw http,
      run (fun _ => Raise (Exn (OtherError "APIConnectionError") "Connection error.")) http
          (analyze_question rt fw (fun _ => None)
             {| request_store_id := "my-shop"; request_question := top_products_question |})
      = Ok (match QuestionResponse fw
                    (PStr "Found 3 top-selling products. Review the list to identify your best performers.")
                    (PStr "medium") (PStr top_products_query) mock_products with
            | Ok response => Responded response
            | Raise e =>
                Raised (HTTPException 500
                          (PStr ("Internal server error: " ++ exn_message e)))
            end).
Proof.
  split; [reflexivity |]. intros rt fw http.
  apply (analyze_question_answer rt fw (fun _ => None)
           {| request_store_id := "my-shop"; request_question := top_products_question |}
           (fun _ => Raise (Exn (OtherError "APIConnectionError") "Connection error.")) http).
  reflexivity.
Defined.
